(** * Maxim MAX78000 SPI platform driver (drivers/platform/maxim/max78000/maxim_spi.c)

    A shallow embedding of the transfer path of the driver:
    [_max_delay_config], [_max_spi_config], [max_spi_transfer] and
    [max_spi_write_and_read], followed by the properties of the
    chip-select delay conversion and of the transfer loop.

    Unsigned 32-bit values are integers of [Z] with the wrap-around written
    out ([u32]).  Pointers are addresses in [Z], 0 being NULL.  The vendor
    peripheral library is an interface ([HAL]) whose functions act on the
    peripheral; every call into it is recorded, with its arguments, in a
    trace.  C undefined behaviour (division by zero, an array index or a
    pointer out of range) is the [None] of the option monad. *)

From Stdlib Require Import ZArith Bool Lia String.
From coqutil Require Import Z.bitblast.
From stdpp Require Import base option list gmap.

Local Open Scope Z_scope.

(** ** Machine integers *)

Definition u32 (x : Z) : Z := x mod 2 ^ 32.

(** Unsigned division; dividing by zero is undefined in C. *)
Definition udiv (a b : Z) : option Z :=
  if b =? 0 then None else Some (a / b).

(** ** Constants *)

(** maxim_spi.c, lines 57-61. *)
Definition SPI_MASTER_MODE : Z := 1.
Definition SPI_SINGLE_MODE : Z := 0.
Definition MAX_DELAY_SCLK : Z := 255.
Definition NS_PER_US : Z := 1000.

(** Modelled from the spec: no_os_units.h is not part of the sources at
    hand; NANO is the number of nanoseconds in a second. *)
Definition NANO : Z := 1000000000.

(** Modelled from the spec: errno.h and the vendor's mxc_errors.h are not
    part of the sources at hand; these are the values of the newlib and
    MSDK headers.  Only their being distinct and non-zero matters below. *)
Definition EINVAL : Z := 22.
Definition EBUSY : Z := 16.
Definition E_BAD_PARAM : Z := -3.
Definition E_BAD_STATE : Z := -7.

(** Modelled from the spec: the vendor's register header is not part of
    the sources at hand.  The spec gives each chip-select delay field a
    ceiling of 255 ticks, the raw value 0 standing for 256 ticks: an 8-bit
    field.  PRE is bits 0..7 of sstime and POST is bits 8..15. *)
Definition MXC_F_SPI_SSTIME_PRE : Z := 0xFF.
Definition MXC_F_SPI_SSTIME_POST : Z := 0xFF00.

(** Modelled from the spec: number of SPI instances of the MAX78000 (vendor
    header); the size of the last-addressed-device table. *)
Definition MXC_SPI_INSTANCES : nat := 2.

(** Modelled from the spec: the enumerations of no_os_spi.h and of the
    vendor's spi.h, which are not part of the sources at hand. *)
Definition NO_OS_SPI_MODE_0 : Z := 0.
Definition NO_OS_SPI_MODE_1 : Z := 1.
Definition NO_OS_SPI_MODE_2 : Z := 2.
Definition NO_OS_SPI_MODE_3 : Z := 3.
Definition SPI_MODE_1 : Z := 1.
Definition SPI_MODE_2 : Z := 2.
Definition SPI_WIDTH_STANDARD : Z := 1.

(** ** Helpers of no_os_util *)

(** Modelled from the spec: the macro of no_os_util.h, absent from the
    sources at hand: integer division rounded to the closest integer,
    [((x) + (y) / 2) / (y)], here at type uint32_t. *)
Definition NO_OS_DIV_ROUND_CLOSEST (x y : Z) : option Z :=
  udiv (u32 (x + y / 2)) y.

(** Modelled from the spec: no_os_find_first_set_bit of no_os_util.c, absent
    from the sources at hand: the index of the lowest set bit, 32 for 0. *)
Fixpoint find_first_set_bit_from (fuel : nat) (word first_set_bit : Z) : Z :=
  match fuel with
  | O => 32
  | S fuel' =>
      if word =? 0 then 32
      else if Z.testbit word 0 then first_set_bit
      else find_first_set_bit_from fuel' (Z.shiftr word 1) (first_set_bit + 1)
  end.

Definition no_os_find_first_set_bit (word : Z) : Z :=
  find_first_set_bit_from 32 word 0.

(** Modelled from the spec: no_os_field_prep of no_os_util.c, absent from
    the sources at hand: the value shifted to the field selected by the
    mask, [(val << no_os_find_first_set_bit(mask)) & mask]. *)
Definition no_os_field_prep (mask val : Z) : Z :=
  Z.land (u32 (Z.shiftl val (no_os_find_first_set_bit mask))) mask.

(** Modelled from the spec: no_os_field_get of no_os_util.c, the inverse
    reading, [(word & mask) >> no_os_find_first_set_bit(mask)].  The driver
    does not call it; the statements below read register fields with it. *)
Definition no_os_field_get (mask word : Z) : Z :=
  Z.shiftr (Z.land word mask) (no_os_find_first_set_bit mask).

(** ** Data model *)

(** struct no_os_spi_msg (no_os_spi.h); buffers are addresses. *)
Record no_os_spi_msg := {
  tx_buff : Z;
  rx_buff : Z;
  bytes_number : Z;
  cs_change : Z;
  cs_change_delay : Z;
  cs_delay_first : Z;
  cs_delay_last : Z
}.

(** struct max_spi_init_param (maxim_spi.h), the fields the driver reads. *)
Record max_spi_init_param := {
  numSlaves : Z;
  polarity : Z;
  vssel : Z
}.

(** struct max_spi_state (maxim_spi.h): the private state behind
    [desc->extra], with the delays applied last. *)
Record max_spi_state := {
  init_param : max_spi_init_param;
  st_cs_delay_first : Z;
  st_cs_delay_last : Z
}.

(** struct no_os_spi_desc (no_os_spi.h); [extra] is the address of the
    private state. *)
Record no_os_spi_desc := {
  device_id : Z;
  max_speed_hz : Z;
  chip_select : Z;
  mode : Z;
  bit_order : Z;
  extra : Z
}.

(** mxc_spi_pins_t of the vendor library. *)
Record mxc_spi_pins_t := {
  clock : bool;
  ss0 : bool;
  ss1 : bool;
  ss2 : bool;
  miso : bool;
  mosi : bool;
  sdio2 : bool;
  sdio3 : bool;
  vddioh : Z
}.

(** mxc_spi_req_t of the vendor library, the fields the driver sets; [spi]
    is the index of the instance whose registers the request points to. *)
Record mxc_spi_req_t := {
  spi : Z;
  ssIdx : Z;
  ssDeassert : Z;
  txData : Z;
  rxData : Z;
  txLen : Z;
  rxLen : Z;
  txCnt : Z;
  rxCnt : Z
}.

(** Calls that leave the driver, in program order. *)
Inductive event :=
  | EvInit (dev masterMode quadModeUsed slaves ssPolarity hz : Z)
           (pins : mxc_spi_pins_t)
  | EvSetMode (dev spiMode : Z)
  | EvSetWidth (dev width : Z)
  | EvSetDataSize (dev dataSize : Z)
  | EvShutdown (dev : Z)
  | EvMasterTransaction (req : mxc_spi_req_t)
  | EvUdelay (usecs : Z)
  | EvWarning (text : string).

(** The peripheral as the driver sees it: the sstime register of each SPI
    instance, which the driver reads and writes itself, and everything else
    (other registers, clocks, memory behind the buffers), which only the
    vendor library touches. *)
Record hw (X : Type) := Hw {
  sstime : list Z;
  ext : X
}.
Arguments Hw {X} _ _.
Arguments sstime {X} _.
Arguments ext {X} _.

(** The functions of the vendor library that the driver calls.  Each takes
    the peripheral and returns its result with the peripheral afterwards;
    instances are named by their index. *)
Class HAL (X : Type) := {
  MXC_SPI_Init : Z -> Z -> Z -> Z -> Z -> Z -> mxc_spi_pins_t -> hw X -> Z * hw X;
  MXC_SPI_SetMode : Z -> Z -> hw X -> Z * hw X;
  MXC_SPI_SetWidth : Z -> Z -> hw X -> Z * hw X;
  MXC_SPI_SetDataSize : Z -> Z -> hw X -> Z * hw X;
  MXC_SPI_Shutdown : Z -> hw X -> Z * hw X;
  MXC_SPI_GetPeripheralClock : Z -> hw X -> Z;
  MXC_SPI_MasterTransaction : mxc_spi_req_t -> hw X -> Z * hw X
}.

(** The whole state a transfer runs in. *)
Record machine (X : Type) := Machine {
  periph : hw X;
  last_slave_id : list Z;
  heap : gmap Z max_spi_state;
  trace : list event
}.
Arguments Machine {X} _ _ _ _.
Arguments periph {X} _.
Arguments last_slave_id {X} _.
Arguments heap {X} _.
Arguments trace {X} _.

(** The table is a static array: zero at process start. *)
Definition initial_last_slave_id : list Z := replicate MXC_SPI_INSTANCES 0.

(** Where control is after a block of [_max_delay_config]: at the next
    statement, at the label [error], or nowhere defined. *)
Inductive flow (A : Type) :=
  | Fall (a : A)
  | Goto_error (a : A)
  | Undefined.
Arguments Fall {A} _.
Arguments Goto_error {A} _.
Arguments Undefined {A}.

Section Driver.

Context {X : Type} `{!HAL X}.

Definition log (e : event) (m : machine X) : machine X :=
  Machine (periph m) (last_slave_id m) (heap m) (trace m ++ [e]).

(** A call into the vendor library: recorded, then run on the peripheral. *)
Definition call (e : event) (f : hw X -> Z * hw X) (m : machine X)
  : Z * machine X :=
  let '(ret, p) := f (periph m) in
  (ret, Machine p (last_slave_id m) (heap m) (trace m ++ [e])).

(** [spi->sstime], [spi] being [MXC_SPI_GET_SPI(dev)]: NULL, hence no
    register, for an index that is not an instance. *)
Definition read_sstime (dev : Z) (m : machine X) : option Z :=
  sstime (periph m) !! Z.to_nat dev.

Definition write_sstime (dev v : Z) (m : machine X) : machine X :=
  Machine (Hw (<[Z.to_nat dev := v]> (sstime (periph m))) (ext (periph m)))
          (last_slave_id m) (heap m) (trace m).

Definition set_state (addr : Z) (st : max_spi_state) (m : machine X)
  : machine X :=
  Machine (periph m) (last_slave_id m) (<[addr := st]> (heap m)) (trace m).

Definition set_last_slave_id (dev v : Z) (m : machine X) : machine X :=
  Machine (periph m) (<[Z.to_nat dev := v]> (last_slave_id m)) (heap m)
          (trace m).

Definition pr_warning (text : string) (m : machine X) : machine X :=
  log (EvWarning text) m.

Definition no_os_udelay (usecs : Z) (m : machine X) : machine X :=
  log (EvUdelay usecs) m.

(** ** _max_delay_config (lines 73-136) *)

(** Line 90. *)
Definition ticks_ns_of (clk_rate : Z) : option Z :=
  NO_OS_DIV_ROUND_CLOSEST NANO clk_rate.

(** Lines 97-100: the tick count of the first delay. *)
Definition first_ticks_delay (msg : no_os_spi_msg) (ticks_ns : Z) : option Z :=
  if cs_delay_first msg =? 0 then Some 1
  else udiv (u32 (cs_delay_first msg * NS_PER_US)) ticks_ns.

(** Lines 115-118: the tick count of the last delay. *)
Definition last_ticks_delay (msg : no_os_spi_msg) (ticks_ns : Z) : option Z :=
  if cs_delay_first msg =? 0 then Some 1
  else udiv (u32 (cs_delay_last msg * NS_PER_US)) ticks_ns.

(** Lines 107-108 and 125-126: [sstime &= ~mask; sstime |= field_prep]. *)
Definition write_field (dev mask ticks_delay : Z) (m : machine X)
  : option (machine X) :=
  r ← read_sstime dev m;
  let m := write_sstime dev (Z.land r (u32 (Z.lnot mask))) m in
  r ← read_sstime dev m;
  Some (write_sstime dev (Z.lor r (no_os_field_prep mask ticks_delay)) m).

(** Lines 92-109. *)
Definition delay_first_block (desc : no_os_spi_desc) (msg : no_os_spi_msg)
    (st : max_spi_state) (ticks_ns : Z) (m : machine X) : flow (machine X) :=
  if negb (cs_delay_first msg =? st_cs_delay_first st) then
    match first_ticks_delay msg ticks_ns with
    | None => Undefined
    | Some ticks_delay =>
        if ticks_delay >? MAX_DELAY_SCLK then
          Goto_error (pr_warning "cs_delay_first value is too high" m)
        else
          match write_field (device_id desc) MXC_F_SPI_SSTIME_PRE ticks_delay m with
          | Some m' => Fall m'
          | None => Undefined
          end
    end
  else Fall m.

(** Lines 110-127. *)
Definition delay_last_block (desc : no_os_spi_desc) (msg : no_os_spi_msg)
    (st : max_spi_state) (ticks_ns : Z) (m : machine X) : flow (machine X) :=
  if negb (cs_delay_last msg =? st_cs_delay_last st) then
    match last_ticks_delay msg ticks_ns with
    | None => Undefined
    | Some ticks_delay =>
        if ticks_delay >? MAX_DELAY_SCLK then
          Goto_error (pr_warning "cs_delay_last value is too high" m)
        else
          match write_field (device_id desc) MXC_F_SPI_SSTIME_POST ticks_delay m with
          | Some m' => Fall m'
          | None => Undefined
          end
    end
  else Fall m.

(** Lines 92-127: the two blocks in sequence. *)
Definition delay_blocks (desc : no_os_spi_desc) (msg : no_os_spi_msg)
    (st : max_spi_state) (ticks_ns : Z) (m : machine X) : flow (machine X) :=
  match delay_first_block desc msg st ticks_ns m with
  | Fall m1 => delay_last_block desc msg st ticks_ns m1
  | other => other
  end.

Definition _max_delay_config (desc : no_os_spi_desc) (msg : no_os_spi_msg)
    (m : machine X) : option (machine X) :=
  st ← heap m !! extra desc;
  if (cs_delay_first msg =? st_cs_delay_first st)
     && (cs_delay_last msg =? st_cs_delay_last st)
  then Some m
  else
    sstime_cache ← read_sstime (device_id desc) m;
    let clk_rate :=
      u32 (MXC_SPI_GetPeripheralClock (device_id desc) (periph m)) in
    ticks_ns ← ticks_ns_of clk_rate;
    match delay_blocks desc msg st ticks_ns m with
    | Fall m' =>
        Some (set_state (extra desc)
                {| init_param := init_param st;
                   st_cs_delay_first := cs_delay_first msg;
                   st_cs_delay_last := cs_delay_last msg |} m')
    | Goto_error m' => Some (write_sstime (device_id desc) sstime_cache m')
    | Undefined => None
    end.

(** ** _max_spi_config (lines 138-208) *)

(** The label [err_init]: shut the instance down and return [ret]. *)
Definition err_init (desc : no_os_spi_desc) (ret : Z) (m : machine X)
  : Z * machine X :=
  let '(_, m) := call (EvShutdown (device_id desc))
                      (MXC_SPI_Shutdown (device_id desc)) m in
  (ret, m).

Definition _max_spi_config (desc : no_os_spi_desc) (m : machine X)
  : option (Z * machine X) :=
  st ← heap m !! extra desc;
  let eparam := init_param st in
  let spi_pins_config :=
    {| clock := true;
       ss0 := chip_select desc =? 0;
       ss1 := chip_select desc =? 1;
       ss2 := chip_select desc =? 2;
       miso := true;
       mosi := true;
       sdio2 := false;
       sdio3 := false;
       vddioh := vssel eparam |} in
  let '(ret, m) :=
    call (EvInit (device_id desc) SPI_MASTER_MODE SPI_SINGLE_MODE
                 (numSlaves eparam) (polarity eparam) (max_speed_hz desc)
                 spi_pins_config)
         (MXC_SPI_Init (device_id desc) SPI_MASTER_MODE SPI_SINGLE_MODE
                       (numSlaves eparam) (polarity eparam)
                       (max_speed_hz desc) spi_pins_config) m in
  if negb (ret =? 0) then Some (err_init desc (- EINVAL) m)
  else
    let spi_mode :=
      if mode desc =? NO_OS_SPI_MODE_1 then Some SPI_MODE_2
      else if mode desc =? NO_OS_SPI_MODE_2 then Some SPI_MODE_1
      else if (mode desc =? NO_OS_SPI_MODE_0) || (mode desc =? NO_OS_SPI_MODE_3)
           then Some (mode desc)
      else None in
    match spi_mode with
    | None => Some (- EINVAL, m)
    | Some spi_mode =>
        let '(ret, m) :=
          call (EvSetMode (device_id desc) spi_mode)
               (MXC_SPI_SetMode (device_id desc) spi_mode) m in
        if negb (ret =? 0) then Some (err_init desc (- EINVAL) m)
        else
          let '(ret, m) :=
            call (EvSetWidth (device_id desc) SPI_WIDTH_STANDARD)
                 (MXC_SPI_SetWidth (device_id desc) SPI_WIDTH_STANDARD) m in
          if negb (ret =? 0) then Some (err_init desc (- EINVAL) m)
          else
            let '(ret, m) :=
              call (EvSetDataSize (device_id desc) 8)
                   (MXC_SPI_SetDataSize (device_id desc) 8) m in
            if negb (ret =? 0) then Some (err_init desc (- EINVAL) m)
            else Some (0, m)
    end.

(** ** max_spi_transfer (lines 293-336) *)

(** Lines 314-323: the request built for one message. *)
Definition request_of (desc : no_os_spi_desc) (msg : no_os_spi_msg)
  : mxc_spi_req_t :=
  {| spi := device_id desc;
     ssIdx := chip_select desc;
     ssDeassert := cs_change msg;
     txData := tx_buff msg;
     rxData := rx_buff msg;
     txLen := if tx_buff msg =? 0 then 0 else bytes_number msg;
     rxLen := if rx_buff msg =? 0 then 0 else bytes_number msg;
     txCnt := 0;
     rxCnt := 0 |}.

(** Lines 316-335: the loop over [msgs[0 .. len-1]] and the final return. *)
Fixpoint transfer_loop (desc : no_os_spi_desc) (msgs : list no_os_spi_msg)
    (m : machine X) : option (Z * machine X) :=
  match msgs with
  | [] => Some (0, m)
  | msg :: rest =>
      let req := request_of desc msg in
      m ← _max_delay_config desc msg m;
      let '(ret, m) :=
        call (EvMasterTransaction req) (MXC_SPI_MasterTransaction req) m in
      if ret =? E_BAD_PARAM then Some (- EINVAL, m)
      else if ret =? E_BAD_STATE then Some (- EBUSY, m)
      else transfer_loop desc rest (no_os_udelay (cs_change_delay msg) m)
  end.

(** [desc] and [msgs] are pointers, [None] for NULL; [len] is the length of
    the list. *)
Definition max_spi_transfer (desc : option no_os_spi_desc)
    (msgs : option (list no_os_spi_msg)) (m : machine X)
  : option (Z * machine X) :=
  match desc, msgs with
  | Some desc, Some msgs =>
      let slave_id := chip_select desc in
      last ← last_slave_id m !! Z.to_nat (device_id desc);
      if negb (slave_id =? last) then
        '(ret, m) ← _max_spi_config desc m;
        if negb (ret =? 0) then Some (ret, m)
        else
          transfer_loop desc msgs
            (set_last_slave_id (device_id desc) slave_id m)
      else transfer_loop desc msgs m
  | _, _ => Some (- EINVAL, m)
  end.

(** ** max_spi_write_and_read (lines 345-357) *)

Definition max_spi_write_and_read (desc : option no_os_spi_desc)
    (data : Z) (bytes_number : Z) (m : machine X) : option (Z * machine X) :=
  let xfer :=
    {| rx_buff := data;
       tx_buff := data;
       bytes_number := bytes_number;
       cs_change := 1;
       cs_change_delay := 0;
       cs_delay_first := 0;
       cs_delay_last := 0 |} in
  max_spi_transfer desc (Some [xfer]) m.

End Driver.

(** ** A scripted peripheral

    A small implementation of the vendor interface on which the driver can
    be run: the peripheral clock is fixed, MXC_SPI_Init returns a fixed
    code, the other configuration calls succeed, and successive transactions
    return the codes of a script (0 once the script is exhausted). *)

Record sim := Sim {
  sim_clock : Z;
  sim_init : Z;
  sim_results : list Z
}.

#[export] Instance sim_HAL : HAL sim := {
  MXC_SPI_Init := fun _ _ _ _ _ _ _ p => (sim_init (ext p), p);
  MXC_SPI_SetMode := fun _ _ p => (0, p);
  MXC_SPI_SetWidth := fun _ _ p => (0, p);
  MXC_SPI_SetDataSize := fun _ _ p => (0, p);
  MXC_SPI_Shutdown := fun _ p => (0, p);
  MXC_SPI_GetPeripheralClock := fun _ p => sim_clock (ext p);
  MXC_SPI_MasterTransaction := fun _ p =>
    match sim_results (ext p) with
    | [] => (0, p)
    | r :: rs => (r, Hw (sstime p) (Sim (sim_clock (ext p)) (sim_init (ext p)) rs))
    end
}.

Definition sim_param : max_spi_init_param :=
  {| numSlaves := 1; polarity := 0; vssel := 0 |}.

(** A descriptor on instance 0 with the given chip select, its private state
    at address 100 + chip select. *)
Definition sim_desc (cs : Z) : no_os_spi_desc :=
  {| device_id := 0; max_speed_hz := 1000000; chip_select := cs;
     mode := NO_OS_SPI_MODE_0; bit_order := 0; extra := 100 + cs |}.

Definition sim_state (first last : Z) : max_spi_state :=
  {| init_param := sim_param;
     st_cs_delay_first := first; st_cs_delay_last := last |}.

(** The machine after reset: sstime of both instances at its reset value
    (one tick in each of PRE, POST and INACT), the table zeroed, private
    states for chip selects 0 and 1 with the given cached delays. *)
Definition sim_machine (clk init : Z) (results : list Z) (first last : Z)
  : machine sim :=
  Machine (Hw [0x010101; 0x010101] (Sim clk init results))
          initial_last_slave_id
          (<[100 := sim_state first last]>
             (<[101 := sim_state first last]> ∅))
          [].

Definition msg_delays (first last : Z) : no_os_spi_msg :=
  {| tx_buff := 4096; rx_buff := 8192; bytes_number := 4; cs_change := 1;
     cs_change_delay := 0; cs_delay_first := first; cs_delay_last := last |}.

(** The scripted machine at a 50 MHz peripheral clock, every call of the
    vendor library succeeding, nothing cached. *)
Definition sim_reset : machine sim := sim_machine 50000000 0 [] 0 0.

(** The same with a first transaction that fails with -1, which is neither
    E_BAD_PARAM nor E_BAD_STATE. *)
Definition sim_faulty : machine sim := sim_machine 50000000 0 [-1] 0 0.

(** The machine the bus configuration step leaves. *)
Definition sim_configured (desc : no_os_spi_desc) (m : machine sim)
  : machine sim :=
  from_option snd m (_max_spi_config desc m).

(** The machine the hardware transaction of a message leaves. *)
Definition sim_transacted (desc : no_os_spi_desc) (msg : no_os_spi_msg)
    (m : machine sim) : machine sim :=
  snd (call (EvMasterTransaction (request_of desc msg))
            (MXC_SPI_MasterTransaction (request_of desc msg)) m).

(** ** Observations on traces *)

Definition is_init (e : event) : bool :=
  match e with EvInit _ _ _ _ _ _ _ => true | _ => false end.

Definition is_transaction (e : event) : bool :=
  match e with EvMasterTransaction _ => true | _ => false end.

(** Every run of [_max_spi_config] starts with one call of MXC_SPI_Init and
    nothing else calls it: the invocations of the bus configuration step in
    a trace are its MXC_SPI_Init events. *)
Definition config_calls (tr : list event) : nat :=
  length (List.filter is_init tr).

Definition transactions (tr : list event) : list event :=
  List.filter is_transaction tr.

(** ** A client issuing successive transfers *)

Fixpoint transfer_each
    {X : Type} `{!HAL X}
    (calls : list (no_os_spi_desc * list no_os_spi_msg)) (m : machine X)
  : option (list Z * machine X) :=
  match calls with
  | [] => Some ([], m)
  | (desc, msgs) :: rest =>
      '(ret, m) ← max_spi_transfer (Some desc) (Some msgs) m;
      '(rets, m) ← transfer_each rest m;
      Some (ret :: rets, m)
  end.

(** The machine a sequence of calls leaves. *)
Definition sim_after_each
    (calls : list (no_os_spi_desc * list no_os_spi_msg)) (m : machine sim)
  : machine sim :=
  from_option snd m (transfer_each calls m).

(** How many elements of a sequence differ from their predecessor, [prev]
    being the predecessor of the first. *)
Fixpoint changes (prev : Z) (l : list Z) : nat :=
  match l with
  | [] => 0%nat
  | c :: l' => ((if (c =? prev)%Z then 0 else 1) + changes c l')%nat
  end.

(** [a; b; a; b; ...], [n] elements. *)
Fixpoint alternate (n : nat) (a b : Z) : list Z :=
  match n with
  | O => []
  | S n' => a :: alternate n' b a
  end.

(** ** The spec's reading of the conversion and of the wrapper *)

(** The tick count as the spec words it: the quotient of the delay in
    nanoseconds by the tick period, rounded to the nearest integer. *)
Definition rounded_ticks (d ticks_ns : Z) : option Z :=
  NO_OS_DIV_ROUND_CLOSEST (d * NS_PER_US) ticks_ns.

(** The message of the spec's writeAndRead: one full-duplex message on the
    given buffer, chip select deasserted afterwards, no pacing and no
    chip-select delays. *)
Definition full_duplex_message (data n : Z) : no_os_spi_msg :=
  {| tx_buff := data; rx_buff := data; bytes_number := n; cs_change := 1;
     cs_change_delay := 0; cs_delay_first := 0; cs_delay_last := 0 |}.

(** ** The failure condition of the delay applier *)

Definition exceeds (o : option Z) : bool :=
  match o with Some t => t >? MAX_DELAY_SCLK | None => false end.

Definition fits (o : option Z) : bool :=
  match o with Some t => negb (t >? MAX_DELAY_SCLK) | None => false end.

(** A computed tick count, of the first delay or, the first block passed,
    of the last delay, is above [MAX_DELAY_SCLK]: the two tests of lines
    102 and 120, each under the guard of its block. *)
Definition delay_out_of_range (msg : no_os_spi_msg) (st : max_spi_state)
    (ticks_ns : Z) : bool :=
  let first_changed := negb (cs_delay_first msg =? st_cs_delay_first st) in
  let last_changed := negb (cs_delay_last msg =? st_cs_delay_last st) in
  (first_changed && exceeds (first_ticks_delay msg ticks_ns))
  || ((negb first_changed || fits (first_ticks_delay msg ticks_ns))
      && last_changed && exceeds (last_ticks_delay msg ticks_ns)).

(** ** More observations on traces *)

(** The requests of the hardware transactions, in order. *)
Definition requests (tr : list event) : list mxc_spi_req_t :=
  omap (fun e => match e with EvMasterTransaction r => Some r | _ => None end)
       tr.

(** The pacing delays, in order. *)
Definition udelays (tr : list event) : list Z :=
  omap (fun e => match e with EvUdelay u => Some u | _ => None end) tr.

(** The switch of lines 169-183 as a function: the mode handed to
    MXC_SPI_SetMode, none for a value outside the enumeration. *)
Definition hw_mode (mode : Z) : option Z :=
  if mode =? NO_OS_SPI_MODE_1 then Some SPI_MODE_2
  else if mode =? NO_OS_SPI_MODE_2 then Some SPI_MODE_1
  else if (mode =? NO_OS_SPI_MODE_0) || (mode =? NO_OS_SPI_MODE_3)
       then Some mode
  else None.

(** The event of the call of MXC_SPI_Init at lines 160-162. *)
Definition init_event (desc : no_os_spi_desc) (st : max_spi_state) : event :=
  EvInit (device_id desc) SPI_MASTER_MODE SPI_SINGLE_MODE
         (numSlaves (init_param st)) (polarity (init_param st))
         (max_speed_hz desc)
         {| clock := true;
            ss0 := chip_select desc =? 0;
            ss1 := chip_select desc =? 1;
            ss2 := chip_select desc =? 2;
            miso := true;
            mosi := true;
            sdio2 := false;
            sdio3 := false;
            vddioh := vssel (init_param st) |}.


(** ** max_spi_init (lines 216-267) and max_spi_remove (lines 274-284) *)

(** Modelled from the spec: errno.h is not part of the sources at hand; the
    value of the newlib header. *)
Definition ENOMEM : Z := 12.

(** struct no_os_spi_init_param (no_os_spi.h), the fields the driver reads;
    [extra] is a pointer, [None] for NULL. *)
Module no_os_spi_init_param.
Record t := {
  device_id : Z;
  max_speed_hz : Z;
  chip_select : Z;
  mode : Z;
  bit_order : Z;
  extra : option max_spi_init_param
}.
End no_os_spi_init_param.

(** The machine with the descriptors that are allocated, by address.  The
    private states, by address too, are the [heap] of the machine. *)
Record system (X : Type) := System {
  mach : machine X;
  descs : gmap Z no_os_spi_desc
}.
Arguments System {X} _ _.
Arguments mach {X} _.
Arguments descs {X} _.

(** A block from no_os_calloc is all zeros. *)
Definition zero_desc : no_os_spi_desc :=
  {| device_id := 0; max_speed_hz := 0; chip_select := 0; mode := 0;
     bit_order := 0; extra := 0 |}.

(** The descriptor that [max_spi_init] fills from its parameter (lines
    238-245). *)
Definition descriptor_of (p : no_os_spi_init_param.t) (st : Z)
  : no_os_spi_desc :=
  {| device_id := no_os_spi_init_param.device_id p;
     max_speed_hz := no_os_spi_init_param.max_speed_hz p;
     chip_select := no_os_spi_init_param.chip_select p;
     mode := no_os_spi_init_param.mode p;
     bit_order := no_os_spi_init_param.bit_order p;
     extra := st |}.

Section Lifecycle.

Context {X : Type} `{!HAL X}.

(** no_os_free of a private state: nothing for NULL; freeing what is not
    allocated is undefined. *)
Definition free_state (addr : Z) (m : machine X) : option (machine X) :=
  if addr =? 0 then Some m
  else
    _ ← heap m !! addr;
    Some (Machine (periph m) (last_slave_id m) (delete addr (heap m))
                  (trace m)).

(** The two results of no_os_calloc are given by the caller of the model:
    [None] for NULL, otherwise the address of the new block.  The private
    state is entered in the heap with its [init_param] already assigned
    (line 244): nothing reads it in between. *)
Definition max_spi_init (param : option no_os_spi_init_param.t)
    (calloc_desc calloc_st : option Z) (s : system X)
  : option (Z * option Z * system X) :=
  match param with
  | None => Some (- EINVAL, None, s)
  | Some param =>
      match no_os_spi_init_param.extra param with
      | None => Some (- EINVAL, None, s)
      | Some eparam =>
          match calloc_desc with
          | None => Some (- ENOMEM, None, s)
          | Some descriptor =>
              let s := System (mach s) (<[descriptor := zero_desc]> (descs s)) in
              match calloc_st with
              | None =>
                  Some (- ENOMEM, None,
                        System (mach s) (delete descriptor (descs s)))
              | Some st =>
                  let d :=
                    {| device_id := no_os_spi_init_param.device_id param;
                       max_speed_hz := no_os_spi_init_param.max_speed_hz param;
                       chip_select := no_os_spi_init_param.chip_select param;
                       mode := no_os_spi_init_param.mode param;
                       bit_order := no_os_spi_init_param.bit_order param;
                       extra := st |} in
                  let s :=
                    System
                      (set_state st
                         {| init_param := eparam;
                            st_cs_delay_first := 0;
                            st_cs_delay_last := 0 |} (mach s))
                      (<[descriptor := d]> (descs s)) in
                  if Z.of_nat MXC_SPI_INSTANCES <=? device_id d then
                    m ← free_state st (mach s);
                    Some (- EINVAL, None,
                          System m (delete descriptor (descs s)))
                  else
                    '(ret, m) ← _max_spi_config d (mach s);
                    if negb (ret =? 0) then
                      let '(_, m) :=
                        call (EvShutdown (device_id d))
                             (MXC_SPI_Shutdown (device_id d)) m in
                      m ← free_state st m;
                      Some (ret, None,
                            System m (delete descriptor (descs s)))
                    else Some (0, Some descriptor, System m (descs s))
              end
          end
      end
  end.

(** [desc] is a pointer: [None] for NULL, otherwise the address of the
    descriptor. *)
Definition max_spi_remove (desc : option Z) (s : system X)
  : option (Z * system X) :=
  match desc with
  | None => Some (- EINVAL, s)
  | Some a =>
      d ← descs s !! a;
      let '(_, m) :=
        call (EvShutdown (device_id d)) (MXC_SPI_Shutdown (device_id d))
             (mach s) in
      m ← free_state (extra d) m;
      Some (0, System m (delete a (descs s)))
  end.

End Lifecycle.

(** ** More of the scripted peripheral *)

(** The machine a transfer leaves. *)
Definition sim_transferred (desc : no_os_spi_desc) (msgs : list no_os_spi_msg)
    (m : machine sim) : machine sim :=
  from_option snd m (max_spi_transfer (Some desc) (Some msgs) m).

(** The machine the delay applier leaves. *)
Definition sim_delayed (desc : no_os_spi_desc) (msg : no_os_spi_msg)
    (m : machine sim) : machine sim :=
  default m (_max_delay_config desc msg m).

(** The machine [max_spi_write_and_read] leaves. *)
Definition sim_written (desc : no_os_spi_desc) (data n : Z) (m : machine sim)
  : machine sim :=
  from_option snd m (max_spi_write_and_read (Some desc) data n m).

(** A machine whose MXC_SPI_Init is refused. *)
Definition sim_refusing : machine sim := sim_machine 50000000 (-1) [] 0 0.

(** A machine whose first transaction is refused with E_BAD_PARAM. *)
Definition sim_bad_param : machine sim :=
  sim_machine 50000000 0 [E_BAD_PARAM] 0 0.


(** A machine whose first transaction is refused with E_BAD_STATE. *)
Definition sim_busy : machine sim := sim_machine 50000000 0 [E_BAD_STATE] 0 0.

(** A system without descriptors, and the parameter of an initialisation
    on the given bus, chip select and mode. *)
Definition sim_system (m : machine sim) : system sim := System m ∅.

Definition sim_request (dev cs md : Z) : no_os_spi_init_param.t :=
  {| no_os_spi_init_param.device_id := dev;
     no_os_spi_init_param.max_speed_hz := 1000000;
     no_os_spi_init_param.chip_select := cs;
     no_os_spi_init_param.mode := md;
     no_os_spi_init_param.bit_order := 0;
     no_os_spi_init_param.extra := Some sim_param |}.

(** A system with one descriptor, at 200, for chip select 0. *)
Definition sim_allocated : system sim :=
  System sim_reset (<[200 := sim_desc 0]> ∅).

(** The system an initialisation leaves, no_os_calloc handing out the
    blocks at 200 and 300. *)
Definition sim_initialised (p : no_os_spi_init_param.t) (s : system sim)
  : system sim :=
  from_option snd s (max_spi_init (Some p) (Some 200) (Some 300) s).


(** [m'] is [m] up to the sstime register of instance [dev] and the
    trace. *)
Definition same_but_sstime {X : Type} (dev : Z) (m m' : machine X) : Prop :=
  last_slave_id m' = last_slave_id m /\ heap m' = heap m /\
  ext (periph m') = ext (periph m) /\
  (sstime (periph m') = sstime (periph m) \/
   exists v, sstime (periph m') = <[Z.to_nat dev := v]> (sstime (periph m))).

(** ** Basic facts *)

Ltac trace_tail :=
  eexists _, _;
  (split; [|split; [reflexivity|split; reflexivity]]); reflexivity.

Section Facts.

Context {X : Type} `{!HAL X}.

Lemma call_inv (e : event) (f : hw X -> Z * hw X) (m m' : machine X) (ret : Z) :
  call e f m = (ret, m') ->
  last_slave_id m' = last_slave_id m /\ heap m' = heap m /\
  trace m' = trace m ++ [e] /\ (ret, periph m') = f (periph m).
Proof.
  unfold call. destruct (f (periph m)) as [r p].
  intros [= <- <-]. simpl. auto.
Qed.

Lemma config_calls_app (t1 t2 : list event) :
  config_calls (t1 ++ t2) = (config_calls t1 + config_calls t2)%nat.
Proof. unfold config_calls. now rewrite List.filter_app, length_app. Qed.

Lemma transactions_app (t1 t2 : list event) :
  transactions (t1 ++ t2) = transactions t1 ++ transactions t2.
Proof. apply List.filter_app. Qed.

Lemma err_init_inv (desc : no_os_spi_desc) (r ret : Z) (m m' : machine X) :
  err_init desc r m = (ret, m') ->
  ret = r /\ last_slave_id m' = last_slave_id m /\ heap m' = heap m /\
  trace m' = trace m ++ [EvShutdown (device_id desc)].
Proof.
  unfold err_init.
  destruct (call _ _ m) as [r0 m0] eqn:E.
  apply call_inv in E as (? & ? & ? & _).
  intros [= <- <-]. auto.
Qed.

(** What the bus configuration step leaves behind, whatever it returns: the
    table and the private states are untouched, the first new event is the
    call of MXC_SPI_Init, no other MXC_SPI_Init and no transaction
    follows. *)
Lemma max_spi_config_inv (desc : no_os_spi_desc) (m m1 : machine X) (ret : Z) :
  _max_spi_config desc m = Some (ret, m1) ->
  last_slave_id m1 = last_slave_id m /\ heap m1 = heap m /\
  exists e tl, is_init e = true /\ trace m1 = trace m ++ e :: tl /\
               config_calls tl = 0%nat /\ transactions tl = [].
Proof.
  unfold _max_spi_config.
  destruct (heap m !! extra desc) as [st|]; simpl; [|discriminate].
  destruct (call _ _ m) as [r0 m0] eqn:E0.
  apply call_inv in E0 as (L0 & H0 & T0 & _).
  destruct (negb (r0 =? 0)).
  { intros [= E]. apply err_init_inv in E as (_ & L & H' & T).
    rewrite L, H', T, T0, L0, H0, <- app_assoc. simpl.
    split; [congruence | split; [congruence | trace_tail]]. }
  match goal with
  | |- context [match ?sm with Some _ => _ | None => _ end = _] =>
      destruct sm as [spi_mode|]
  end.
  2:{ intros [= <- <-]. rewrite T0. split; [congruence | split; [congruence | trace_tail]]. }
  destruct (call _ _ m0) as [r1 m2] eqn:E1.
  apply call_inv in E1 as (L1 & H1 & T1 & _).
  destruct (negb (r1 =? 0)).
  { intros [= E]. apply err_init_inv in E as (_ & L & H' & T).
    rewrite L, H', T, T1, T0, L1, H1, L0, H0, <- !app_assoc. simpl.
    split; [congruence | split; [congruence | trace_tail]]. }
  destruct (call _ _ m2) as [r2 m3] eqn:E2.
  apply call_inv in E2 as (L2 & H2 & T2 & _).
  destruct (negb (r2 =? 0)).
  { intros [= E]. apply err_init_inv in E as (_ & L & H' & T).
    rewrite L, H', T, T2, T1, T0, L2, H2, L1, H1, L0, H0, <- !app_assoc. simpl.
    split; [congruence | split; [congruence | trace_tail]]. }
  destruct (call _ _ m3) as [r3 m4] eqn:E3.
  apply call_inv in E3 as (L3 & H3 & T3 & _).
  destruct (negb (r3 =? 0)).
  { intros [= E]. apply err_init_inv in E as (_ & L & H' & T).
    rewrite L, H', T, T3, T2, T1, T0, L3, H3, L2, H2, L1, H1, L0, H0,
      <- !app_assoc. simpl.
    split; [congruence | split; [congruence | trace_tail]]. }
  intros [= <- <-].
  rewrite T3, T2, T1, T0, L3, H3, L2, H2, L1, H1, L0, H0, <- !app_assoc. simpl.
  split; [congruence | split; [congruence | trace_tail]].
Qed.

Lemma same_but_sstime_refl (dev : Z) (m : machine X) : same_but_sstime dev m m.
Proof. unfold same_but_sstime. auto. Qed.

Lemma same_but_sstime_trans (dev : Z) (m1 m2 m3 : machine X) :
  same_but_sstime dev m1 m2 -> same_but_sstime dev m2 m3 ->
  same_but_sstime dev m1 m3.
Proof.
  intros (L1 & H1 & E1 & S1) (L2 & H2 & E2 & S2).
  unfold same_but_sstime. repeat split; try congruence.
  destruct S2 as [-> | [v ->]]; [assumption|].
  right. destruct S1 as [-> | [w ->]]; [eauto|].
  exists v. apply list_insert_insert_eq.
Qed.

Lemma write_field_inv (dev mask t : Z) (m m' : machine X) :
  write_field dev mask t m = Some m' ->
  same_but_sstime dev m m' /\ trace m' = trace m /\
  exists r, read_sstime dev m = Some r /\
    read_sstime dev m' =
      Some (Z.lor (Z.land r (u32 (Z.lnot mask))) (no_os_field_prep mask t)).
Proof.
  unfold write_field, read_sstime.
  destruct (sstime (periph m) !! Z.to_nat dev) as [r|] eqn:E; simpl;
    [|discriminate].
  pose proof (lookup_lt_Some _ _ _ E) as Hlt.
  rewrite list_lookup_insert_eq by assumption. simpl.
  intros [= <-]. simpl. rewrite list_insert_insert_eq.
  split; [|split; [reflexivity|]].
  - unfold same_but_sstime. simpl. rewrite ?list_insert_insert_eq. eauto 10.
  - exists r. split; [reflexivity|]. simpl. rewrite ?list_insert_insert_eq.
    apply list_lookup_insert_eq. assumption.
Qed.

Lemma write_field_defined (dev mask t r : Z) (m : machine X) :
  read_sstime dev m = Some r -> is_Some (write_field dev mask t m).
Proof.
  unfold write_field, read_sstime. intros E. rewrite E. simpl.
  rewrite list_lookup_insert_eq by (eapply lookup_lt_Some; eassumption).
  simpl. eauto.
Qed.

Lemma read_sstime_defined (dev : Z) (m m' : machine X) (r : Z) :
  same_but_sstime dev m m' -> read_sstime dev m = Some r ->
  is_Some (read_sstime dev m').
Proof.
  intros (_ & _ & _ & [E | [v E]]) Hr; unfold read_sstime in *; rewrite E.
  - eauto.
  - apply lookup_lt_is_Some. rewrite length_insert.
    eapply lookup_lt_Some; eassumption.
Qed.

Lemma delay_first_block_inv desc msg st ticks_ns (m : machine X) :
  match delay_first_block desc msg st ticks_ns m with
  | Fall m' => same_but_sstime (device_id desc) m m' /\ trace m' = trace m
  | Goto_error m' =>
      m' = pr_warning "cs_delay_first value is too high" m
  | Undefined => True
  end.
Proof.
  unfold delay_first_block.
  destruct (negb _); [|split; [apply same_but_sstime_refl | reflexivity]].
  destruct (first_ticks_delay msg ticks_ns) as [t|]; [|exact I].
  destruct (t >? MAX_DELAY_SCLK); [reflexivity|].
  destruct (write_field _ _ _ m) as [m'|] eqn:E; [|exact I].
  apply write_field_inv in E as (? & ? & _). auto.
Qed.

Lemma delay_last_block_inv desc msg st ticks_ns (m : machine X) :
  match delay_last_block desc msg st ticks_ns m with
  | Fall m' => same_but_sstime (device_id desc) m m' /\ trace m' = trace m
  | Goto_error m' =>
      m' = pr_warning "cs_delay_last value is too high" m
  | Undefined => True
  end.
Proof.
  unfold delay_last_block.
  destruct (negb _); [|split; [apply same_but_sstime_refl | reflexivity]].
  destruct (last_ticks_delay msg ticks_ns) as [t|]; [|exact I].
  destruct (t >? MAX_DELAY_SCLK); [reflexivity|].
  destruct (write_field _ _ _ m) as [m'|] eqn:E; [|exact I].
  apply write_field_inv in E as (? & ? & _). auto.
Qed.

Lemma delay_blocks_inv desc msg st ticks_ns (m : machine X) :
  match delay_blocks desc msg st ticks_ns m with
  | Fall m' => same_but_sstime (device_id desc) m m' /\ trace m' = trace m
  | Goto_error m' =>
      same_but_sstime (device_id desc) m m' /\
      exists text, trace m' = trace m ++ [EvWarning text]
  | Undefined => True
  end.
Proof.
  unfold delay_blocks.
  pose proof (delay_first_block_inv desc msg st ticks_ns m) as H1.
  destruct (delay_first_block desc msg st ticks_ns m) as [m1|m1|];
    [| subst m1; split; [unfold same_but_sstime; simpl; auto | simpl; eauto]
     | exact I].
  destruct H1 as [S1 T1].
  pose proof (delay_last_block_inv desc msg st ticks_ns m1) as H2.
  destruct (delay_last_block desc msg st ticks_ns m1) as [m2|m2|];
    [| | exact I].
  - destruct H2 as [S2 T2]. split; [|congruence].
    eapply same_but_sstime_trans; eassumption.
  - subst m2. split; [|simpl; rewrite T1; eauto].
    eapply same_but_sstime_trans; [exact S1|].
    unfold same_but_sstime; simpl; auto.
Qed.

(** The delay applier touches neither the table nor the configuration, and
    logs at most a warning. *)
Lemma max_delay_config_inv desc msg (m m' : machine X) :
  _max_delay_config desc msg m = Some m' ->
  last_slave_id m' = last_slave_id m /\
  exists tl, trace m' = trace m ++ tl /\ config_calls tl = 0%nat /\
             transactions tl = [].
Proof.
  unfold _max_delay_config.
  destruct (heap m !! extra desc) as [st|]; simpl; [|discriminate].
  destruct (_ && _).
  { intros [= <-]. split; [reflexivity|]. exists []. rewrite app_nil_r. auto. }
  destruct (read_sstime (device_id desc) m) as [cache|]; simpl; [|discriminate].
  destruct (ticks_ns_of _) as [ticks_ns|]; simpl; [|discriminate].
  pose proof (delay_blocks_inv desc msg st ticks_ns m) as Hb.
  destruct (delay_blocks desc msg st ticks_ns m) as [m1|m1|]; [| |discriminate].
  - destruct Hb as [(L & _) T]. intros [= <-]. simpl.
    split; [assumption|]. exists []. rewrite app_nil_r. auto.
  - destruct Hb as [(L & _) [text T]]. intros [= <-]. simpl.
    split; [assumption|]. exists [EvWarning text]. auto.
Qed.

(** The loop never configures the bus and never touches the table; it
    returns 0, -EINVAL or -EBUSY. *)
Lemma transfer_loop_inv desc msgs : forall (m m' : machine X) (ret : Z),
  transfer_loop desc msgs m = Some (ret, m') ->
  last_slave_id m' = last_slave_id m /\
  (exists tl, trace m' = trace m ++ tl /\ config_calls tl = 0%nat) /\
  (ret = 0 \/ ret = - EINVAL \/ ret = - EBUSY).
Proof.
  induction msgs as [|msg rest IH]; intros m m' ret; simpl.
  { intros [= <- <-]. split; [reflexivity|]. split; [|auto].
    exists []. rewrite app_nil_r. auto. }
  destruct (_max_delay_config desc msg m) as [m1|] eqn:D; simpl; [|discriminate].
  apply max_delay_config_inv in D as (L1 & tl1 & T1 & C1 & _).
  destruct (call _ _ m1) as [r m2] eqn:E.
  apply call_inv in E as (L2 & _ & T2 & _).
  assert (Hm2 : exists tl, trace m2 = trace m ++ tl /\ config_calls tl = 0%nat).
  { eexists. rewrite T2, T1, <- app_assoc. split; [reflexivity|].
    rewrite config_calls_app, C1. reflexivity. }
  destruct (r =? E_BAD_PARAM).
  { intros [= <- <-]. split; [congruence|]. split; auto. }
  destruct (r =? E_BAD_STATE).
  { intros [= <- <-]. split; [congruence|]. split; auto. }
  intros Hl. apply IH in Hl as (L3 & (tl3 & T3 & C3) & R).
  simpl in L3, T3. split; [congruence|]. split; [|assumption].
  destruct Hm2 as (tl2 & T2' & C2).
  eexists. rewrite T3, T2', <- !app_assoc. split; [reflexivity|].
  rewrite !config_calls_app, C2, C3. reflexivity.
Qed.

End Facts.

(** ** The delay applier: failure and recovery *)

Section Delay_failure.

Context {X : Type} `{!HAL X}.

(** [delay_out_of_range] is exactly the condition under which the blocks
    jump to [error], as long as the sstime register exists. *)
Lemma delay_blocks_out_of_range desc msg st ticks_ns (m : machine X) cache :
  read_sstime (device_id desc) m = Some cache ->
  delay_out_of_range msg st ticks_ns = true ->
  exists m', delay_blocks desc msg st ticks_ns m = Goto_error m'.
Proof.
  intros Hr H. unfold delay_out_of_range in H.
  unfold delay_blocks, delay_first_block.
  destruct (negb (cs_delay_first msg =? st_cs_delay_first st)); simpl in H.
  - destruct (first_ticks_delay msg ticks_ns) as [t1|]; simpl in H;
      [|discriminate].
    destruct (t1 >? MAX_DELAY_SCLK); simpl in H; [eauto|].
    destruct (write_field_defined (device_id desc) MXC_F_SPI_SSTIME_PRE t1
                cache m Hr) as [m1 W].
    rewrite W. unfold delay_last_block.
    destruct (negb (cs_delay_last msg =? st_cs_delay_last st)); simpl in H;
      [|discriminate].
    destruct (last_ticks_delay msg ticks_ns) as [t2|]; simpl in H;
      [|discriminate].
    rewrite H. eauto.
  - unfold delay_last_block.
    destruct (negb (cs_delay_last msg =? st_cs_delay_last st)); simpl in H;
      [|discriminate].
    destruct (last_ticks_delay msg ticks_ns) as [t2|]; simpl in H;
      [|discriminate].
    rewrite H. eauto.
Qed.

Lemma delay_blocks_error_out_of_range desc msg st ticks_ns (m m' : machine X) :
  delay_blocks desc msg st ticks_ns m = Goto_error m' ->
  delay_out_of_range msg st ticks_ns = true.
Proof.
  unfold delay_out_of_range, delay_blocks, delay_first_block.
  destruct (negb (cs_delay_first msg =? st_cs_delay_first st)); simpl.
  - destruct (first_ticks_delay msg ticks_ns) as [t1|]; simpl;
      [|discriminate].
    destruct (t1 >? MAX_DELAY_SCLK); simpl; [reflexivity|].
    destruct (write_field _ _ _ m) as [m1|]; [|discriminate].
    unfold delay_last_block.
    destruct (negb (cs_delay_last msg =? st_cs_delay_last st)); simpl;
      [|discriminate].
    destruct (last_ticks_delay msg ticks_ns) as [t2|]; simpl;
      [|discriminate].
    destruct (t2 >? MAX_DELAY_SCLK); simpl; [reflexivity|].
    destruct (write_field _ _ _ m1); discriminate.
  - unfold delay_last_block.
    destruct (negb (cs_delay_last msg =? st_cs_delay_last st)); simpl;
      [|discriminate].
    destruct (last_ticks_delay msg ticks_ns) as [t2|]; simpl;
      [|discriminate].
    destruct (t2 >? MAX_DELAY_SCLK); simpl; [reflexivity|].
    destruct (write_field _ _ _ m); discriminate.
Qed.

Lemma out_of_range_changed msg st ticks_ns :
  delay_out_of_range msg st ticks_ns = true ->
  (cs_delay_first msg =? st_cs_delay_first st)
  && (cs_delay_last msg =? st_cs_delay_last st) = false.
Proof.
  unfold delay_out_of_range.
  destruct (cs_delay_first msg =? st_cs_delay_first st);
    destruct (cs_delay_last msg =? st_cs_delay_last st); simpl;
    rewrite ?andb_false_r; simpl; congruence.
Qed.

(** C5.  Whenever a computed tick count, of the first or of the last delay,
    is above the 255-tick maximum, [_max_delay_config] returns with the
    peripheral, the sstime register included, exactly as on entry and with
    the cached delays unchanged, having only logged a warning; and
    the transfer loop goes on with the hardware transaction of that very
    message, its outcome decided by the transaction alone. *)
Theorem C5_delay_failure_restores_and_continues
    desc msg rest (m : machine X) st cache ticks_ns :
  heap m !! extra desc = Some st ->
  read_sstime (device_id desc) m = Some cache ->
  ticks_ns_of (u32 (MXC_SPI_GetPeripheralClock (device_id desc) (periph m)))
    = Some ticks_ns ->
  delay_out_of_range msg st ticks_ns = true ->
  exists m' text,
    _max_delay_config desc msg m = Some m' /\
    periph m' = periph m /\ heap m' = heap m /\
    last_slave_id m' = last_slave_id m /\
    trace m' = trace m ++ [EvWarning text] /\
    exists ret m2,
      call (EvMasterTransaction (request_of desc msg))
           (MXC_SPI_MasterTransaction (request_of desc msg)) m' = (ret, m2) /\
      trace m2 = trace m ++ [EvWarning text;
                             EvMasterTransaction (request_of desc msg)] /\
      transfer_loop desc (msg :: rest) m =
        if ret =? E_BAD_PARAM then Some (- EINVAL, m2)
        else if ret =? E_BAD_STATE then Some (- EBUSY, m2)
        else transfer_loop desc rest (no_os_udelay (cs_change_delay msg) m2).
Proof.
  intros Hst Hr Ht Hout.
  destruct (delay_blocks_out_of_range desc msg st ticks_ns m cache Hr Hout)
    as [m1 Hb].
  pose proof (delay_blocks_inv desc msg st ticks_ns m) as Hinv.
  rewrite Hb in Hinv. destruct Hinv as [(L & Hh & He & Hs) [text T]].
  assert (D : _max_delay_config desc msg m
              = Some (write_sstime (device_id desc) cache m1)).
  { unfold _max_delay_config. rewrite Hst. simpl.
    rewrite (out_of_range_changed _ _ _ Hout), Hr. simpl.
    rewrite Ht. simpl. rewrite Hb. reflexivity. }
  assert (P : periph (write_sstime (device_id desc) cache m1) = periph m).
  { unfold write_sstime. simpl. rewrite He.
    unfold read_sstime in Hr.
    destruct (periph m) as [regs x]. simpl in *. f_equal.
    destruct Hs as [-> | [v ->]].
    - apply list_insert_id. assumption.
    - rewrite list_insert_insert_eq. apply list_insert_id. assumption. }
  exists (write_sstime (device_id desc) cache m1), text.
  split; [exact D|]. split; [exact P|].
  split; [exact Hh|]. split; [exact L|]. split; [exact T|].
  destruct (call (EvMasterTransaction (request_of desc msg))
              (MXC_SPI_MasterTransaction (request_of desc msg))
              (write_sstime (device_id desc) cache m1)) as [ret m2] eqn:E.
  exists ret, m2. split; [reflexivity|].
  pose proof (call_inv _ _ _ _ _ E) as (_ & _ & T2 & _).
  split.
  - rewrite T2. simpl. rewrite T, <- app_assoc. reflexivity.
  - simpl. rewrite D. simpl. rewrite E. reflexivity.
Qed.

End Delay_failure.

(** C5 on the scripted peripheral: a first delay of 300 us at a 50 MHz
    peripheral clock is 15000 ticks. *)
Lemma C5_witness :
  exists m' text,
    _max_delay_config (sim_desc 0) (msg_delays 300 0)
      (sim_machine 50000000 0 [] 0 0) = Some m' /\
    periph m' = periph (sim_machine 50000000 0 [] 0 0) /\
    heap m' = heap (sim_machine 50000000 0 [] 0 0) /\
    last_slave_id m' = last_slave_id (sim_machine 50000000 0 [] 0 0) /\
    trace m' = trace (sim_machine 50000000 0 [] 0 0) ++ [EvWarning text] /\
    exists ret m2,
      call (EvMasterTransaction (request_of (sim_desc 0) (msg_delays 300 0)))
           (MXC_SPI_MasterTransaction
              (request_of (sim_desc 0) (msg_delays 300 0))) m' = (ret, m2) /\
      trace m2 = trace (sim_machine 50000000 0 [] 0 0)
                 ++ [EvWarning text;
                     EvMasterTransaction
                       (request_of (sim_desc 0) (msg_delays 300 0))] /\
      transfer_loop (sim_desc 0) [msg_delays 300 0]
        (sim_machine 50000000 0 [] 0 0) =
        if ret =? E_BAD_PARAM then Some (- EINVAL, m2)
        else if ret =? E_BAD_STATE then Some (- EBUSY, m2)
        else transfer_loop (sim_desc 0) []
               (no_os_udelay (cs_change_delay (msg_delays 300 0)) m2).
Proof.
  apply (C5_delay_failure_restores_and_continues
           (sim_desc 0) (msg_delays 300 0) [] (sim_machine 50000000 0 [] 0 0)
           (sim_state 0 0) 0x010101 20); reflexivity.
Defined.

(** ** The transfer loop *)

Section Transfer.

Context {X : Type} `{!HAL X}.

(** A NULL descriptor or a NULL message array is refused before anything
    else. *)
Lemma max_spi_transfer_null desc msgs (m : machine X) :
  desc = None \/ msgs = None ->
  max_spi_transfer desc msgs m = Some (- EINVAL, m).
Proof.
  intros [-> | ->]; [reflexivity|]. destruct desc; reflexivity.
Qed.

(** Without a change of chip select the loop starts at once. *)
Lemma max_spi_transfer_same desc msgs (m : machine X) :
  last_slave_id m !! Z.to_nat (device_id desc) = Some (chip_select desc) ->
  max_spi_transfer (Some desc) (Some msgs) m = transfer_loop desc msgs m.
Proof.
  intros H0. unfold max_spi_transfer. rewrite H0. simpl.
  rewrite Z.eqb_refl. reflexivity.
Qed.

(** With a change the configuration step runs first and decides. *)
Lemma max_spi_transfer_changed desc msgs (m : machine X) last :
  last_slave_id m !! Z.to_nat (device_id desc) = Some last ->
  chip_select desc <> last ->
  max_spi_transfer (Some desc) (Some msgs) m =
    '(ret, m1) ← _max_spi_config desc m;
    if negb (ret =? 0) then Some (ret, m1)
    else transfer_loop desc msgs
           (set_last_slave_id (device_id desc) (chip_select desc) m1).
Proof.
  intros H0 Hne. unfold max_spi_transfer. rewrite H0. simpl.
  destruct (Z.eqb_spec (chip_select desc) last) as [|_]; [contradiction|].
  reflexivity.
Qed.

Lemma max_spi_transfer_configured desc msgs (m m1 : machine X) last ret :
  last_slave_id m !! Z.to_nat (device_id desc) = Some last ->
  chip_select desc <> last ->
  _max_spi_config desc m = Some (ret, m1) ->
  max_spi_transfer (Some desc) (Some msgs) m =
    if ret =? 0
    then transfer_loop desc msgs
           (set_last_slave_id (device_id desc) (chip_select desc) m1)
    else Some (ret, m1).
Proof.
  intros H0 Hne Hc.
  rewrite (max_spi_transfer_changed _ _ _ _ H0 Hne), Hc. simpl.
  destruct (ret =? 0); reflexivity.
Qed.

(** One call configures the bus once if the chip select differs from the
    table entry and not at all otherwise; a call that returns 0 leaves the
    chip select in the table. *)
Lemma max_spi_transfer_config_calls desc msgs (m m' : machine X) last ret :
  last_slave_id m !! Z.to_nat (device_id desc) = Some last ->
  max_spi_transfer (Some desc) (Some msgs) m = Some (ret, m') ->
  config_calls (trace m') =
    (config_calls (trace m) + if (chip_select desc =? last)%Z then 0 else 1)%nat
  /\ length (last_slave_id m') = length (last_slave_id m)
  /\ (ret = 0 ->
      last_slave_id m' !! Z.to_nat (device_id desc) = Some (chip_select desc)).
Proof.
  intros H0.
  destruct (Z.eqb_spec (chip_select desc) last) as [E|Hne].
  - subst last. rewrite max_spi_transfer_same by assumption. intros Hl.
    apply transfer_loop_inv in Hl as (L & (tl & T & C) & _).
    rewrite T, config_calls_app, C, L. auto.
  - rewrite (max_spi_transfer_changed _ _ _ _ H0 Hne).
    destruct (_max_spi_config desc m) as [[r m1]|] eqn:Hc; simpl;
      [|discriminate].
    apply max_spi_config_inv in Hc as (L1 & _ & e & tl & He & T1 & C1 & _).
    assert (Cm1 : config_calls (trace m1) = (config_calls (trace m) + 1)%nat).
    { rewrite T1, config_calls_app. f_equal.
      change (e :: tl) with ([e] ++ tl). rewrite config_calls_app, C1.
      unfold config_calls. simpl. rewrite He. reflexivity. }
    destruct (Z.eqb_spec r 0) as [->|Hr]; simpl.
    + intros Hl. apply transfer_loop_inv in Hl as (L & (tl' & T & C) & _).
      simpl in L, T. rewrite T, config_calls_app, C, Cm1, L.
      rewrite length_insert, L1. split; [lia|]. split; [reflexivity|].
      intros _. apply list_lookup_insert_eq.
      eapply lookup_lt_Some; eassumption.
    + intros [= <- <-]. rewrite Cm1, L1. split; [reflexivity|].
      split; [reflexivity|]. intros; contradiction.
Qed.

(** Over successive calls on one bus that all return 0, the bus is
    configured exactly at the calls whose chip select differs from the one
    before. *)
Lemma transfer_each_config_calls (dev : Z) :
  forall calls (m m' : machine X) rets last,
  Forall (fun c => device_id (fst c) = dev) calls ->
  last_slave_id m !! Z.to_nat dev = Some last ->
  transfer_each calls m = Some (rets, m') ->
  Forall (fun r => r = 0) rets ->
  config_calls (trace m') =
    (config_calls (trace m)
     + changes last (map (fun c => chip_select (fst c)) calls))%nat.
Proof.
  induction calls as [|[desc msgs] rest IH]; intros m m' rets last Hdev H0;
    cbn [transfer_each].
  { intros [= <- <-] _. simpl. lia. }
  apply Forall_cons in Hdev as [Hd Hdev]. simpl in Hd. subst dev.
  destruct (max_spi_transfer (Some desc) (Some msgs) m) as [[r m1]|] eqn:Ht;
    simpl; [|discriminate].
  destruct (transfer_each rest m1) as [[rs m2]|] eqn:Hr; simpl; [|discriminate].
  intros [= <- <-] Hz. apply Forall_cons in Hz as [-> Hz].
  apply (max_spi_transfer_config_calls _ _ _ _ _ _ H0) in Ht as (C1 & _ & Htab).
  rewrite (IH _ _ _ _ Hdev (Htab eq_refl) Hr Hz), C1. lia.
Qed.

Lemma changes_replicate (n : nat) (c last : Z) :
  changes last (replicate (S n) c) = if (c =? last)%Z then 0%nat else 1%nat.
Proof.
  simpl. assert (H0 : changes c (replicate n c) = 0%nat).
  { induction n as [|n IH]; simpl; [reflexivity|].
    rewrite Z.eqb_refl. exact IH. }
  rewrite H0. lia.
Qed.

Lemma changes_alternate_inner (n : nat) : forall a b : Z,
  a <> b -> changes b (alternate n a b) = n.
Proof.
  induction n as [|n IH]; intros a b Hne; simpl; [reflexivity|].
  destruct (Z.eqb_spec a b) as [|_]; [contradiction|].
  rewrite IH by congruence. reflexivity.
Qed.

Lemma changes_alternate (n : nat) (a b last : Z) :
  a <> b ->
  changes last (alternate (S n) a b) = if a =? last then n else S n.
Proof.
  intros Hne. simpl. rewrite changes_alternate_inner by congruence.
  destruct (a =? last); reflexivity.
Qed.

End Transfer.

(** ** Properties of max_spi_transfer and max_spi_write_and_read *)

Section Transfer_properties.

Context {X : Type} `{!HAL X}.

(** One turn of the loop, by the result of the hardware transaction:
    E_BAD_PARAM ends the call with -EINVAL, E_BAD_STATE with -EBUSY, in
    both cases with this transaction as the last one executed; after any
    other result, zero or not, the loop makes the pacing delay and goes on
    with the remaining messages. *)
Lemma transfer_loop_step
    desc msg rest (m m1 m2 : machine X) ret :
  _max_delay_config desc msg m = Some m1 ->
  call (EvMasterTransaction (request_of desc msg))
       (MXC_SPI_MasterTransaction (request_of desc msg)) m1 = (ret, m2) ->
  (ret = E_BAD_PARAM ->
   transfer_loop desc (msg :: rest) m = Some (- EINVAL, m2)) /\
  (ret = E_BAD_STATE ->
   transfer_loop desc (msg :: rest) m = Some (- EBUSY, m2)) /\
  (ret <> E_BAD_PARAM -> ret <> E_BAD_STATE ->
   transfer_loop desc (msg :: rest) m =
     transfer_loop desc rest (no_os_udelay (cs_change_delay msg) m2)) /\
  transactions (trace m2) =
    transactions (trace m) ++ [EvMasterTransaction (request_of desc msg)] /\
  (forall r m', transfer_loop desc (msg :: rest) m = Some (r, m') ->
                r = 0 \/ r = - EINVAL \/ r = - EBUSY).
Proof.
  intros D E. simpl. rewrite D. simpl. rewrite E.
  split; [intros ->; reflexivity|].
  split; [intros ->; reflexivity|].
  split.
  { intros H1 H2.
    destruct (Z.eqb_spec ret E_BAD_PARAM) as [|_]; [contradiction|].
    destruct (Z.eqb_spec ret E_BAD_STATE) as [|_]; [contradiction|].
    reflexivity. }
  split.
  { apply max_delay_config_inv in D as (_ & tl & T & _ & Tr).
    apply call_inv in E as (_ & _ & T2 & _).
    rewrite T2, T, !transactions_app, Tr, app_nil_r. reflexivity. }
  intros r m' Hl.
  assert (Hl' : transfer_loop desc (msg :: rest) m = Some (r, m')).
  { simpl. rewrite D. simpl. rewrite E. exact Hl. }
  apply transfer_loop_inv in Hl' as (_ & _ & R). exact R.
Qed.

(** C7.  When the chip select of the handle differs from the table entry of
    its bus, [max_spi_transfer] first runs the bus configuration step on
    the state it was entered with: the first new event is the step's call
    of MXC_SPI_Init, the step itself executes no transaction, and whatever
    the call does afterwards comes after the step's events.  If the step
    fails, the call returns its error in the state the step left, with the
    table unchanged and no transaction executed.  If it succeeds, the loop
    starts with the table entry set to the chip select of the handle, and
    the entry is still that at the end of the call. *)
Theorem C7_reconfigure_on_chip_select_change
    desc msgs (m m1 : machine X) last ret :
  last_slave_id m !! Z.to_nat (device_id desc) = Some last ->
  chip_select desc <> last ->
  _max_spi_config desc m = Some (ret, m1) ->
  (exists e tl, is_init e = true /\ trace m1 = trace m ++ e :: tl /\
                transactions tl = []) /\
  (forall r m', max_spi_transfer (Some desc) (Some msgs) m = Some (r, m') ->
                exists tl', trace m' = trace m1 ++ tl') /\
  (ret <> 0 ->
   max_spi_transfer (Some desc) (Some msgs) m = Some (ret, m1) /\
   last_slave_id m1 = last_slave_id m /\
   transactions (trace m1) = transactions (trace m)) /\
  (ret = 0 ->
   max_spi_transfer (Some desc) (Some msgs) m =
     transfer_loop desc msgs
       (set_last_slave_id (device_id desc) (chip_select desc) m1) /\
   forall r m', max_spi_transfer (Some desc) (Some msgs) m = Some (r, m') ->
     last_slave_id m' =
       <[Z.to_nat (device_id desc) := chip_select desc]> (last_slave_id m) /\
     last_slave_id m' !! Z.to_nat (device_id desc) = Some (chip_select desc)).
Proof.
  intros H0 Hne Hc.
  pose proof (max_spi_transfer_configured desc msgs m m1 last ret H0 Hne Hc)
    as Ht.
  pose proof (max_spi_config_inv _ _ _ _ Hc) as (L1 & _ & e & tl & He & T1 & _ & Tr).
  split; [eauto 10|].
  split.
  { intros r m'. rewrite Ht.
    destruct (ret =? 0).
    - intros Hl. apply transfer_loop_inv in Hl as (_ & (tl' & T & _) & _).
      eauto.
    - intros [= <- <-]. exists []. now rewrite app_nil_r. }
  split.
  - intros Hr. apply Z.eqb_neq in Hr. rewrite Hr in Ht.
    split; [exact Ht|]. split; [exact L1|].
    rewrite T1, transactions_app. simpl.
    destruct e; try discriminate He. simpl. rewrite Tr. apply app_nil_r.
  - intros ->. rewrite Z.eqb_refl in Ht. split; [exact Ht|].
    intros r m'. rewrite Ht. intros Hl.
    apply transfer_loop_inv in Hl as (L & _ & _). simpl in L.
    rewrite L, L1. split; [reflexivity|].
    apply list_lookup_insert_eq. eapply lookup_lt_Some; eassumption.
Qed.

(** C8, amended.  One call of [max_spi_transfer] runs the bus configuration
    step once if the chip select of the handle differs from the table entry
    of the bus and not at all if it is equal, however many messages the
    call carries.  Over successive calls on one bus that all return 0: calls
    that address the same chip select run the step once in all if that
    chip select differs from the entry before the first call, and never
    otherwise; calls that alternate between two distinct chip selects run
    it at every call, except at the first when its chip select equals the
    entry before it. *)
Theorem C8_configuration_count :
  (forall desc msgs (m m' : machine X) last ret,
     last_slave_id m !! Z.to_nat (device_id desc) = Some last ->
     max_spi_transfer (Some desc) (Some msgs) m = Some (ret, m') ->
     config_calls (trace m') =
       (config_calls (trace m)
        + if (chip_select desc =? last)%Z then 0 else 1)%nat) /\
  (forall dev calls (m m' : machine X) rets last n c,
     Forall (fun k => device_id (fst k) = dev) calls ->
     last_slave_id m !! Z.to_nat dev = Some last ->
     transfer_each calls m = Some (rets, m') ->
     Forall (fun r => r = 0) rets ->
     map (fun k => chip_select (fst k)) calls = replicate (S n) c ->
     config_calls (trace m') =
       (config_calls (trace m) + if (c =? last)%Z then 0 else 1)%nat) /\
  (forall dev calls (m m' : machine X) rets last n a b,
     Forall (fun k => device_id (fst k) = dev) calls ->
     last_slave_id m !! Z.to_nat dev = Some last ->
     transfer_each calls m = Some (rets, m') ->
     Forall (fun r => r = 0) rets ->
     map (fun k => chip_select (fst k)) calls = alternate (S n) a b ->
     a <> b ->
     config_calls (trace m') =
       (config_calls (trace m) + if (a =? last)%Z then n else S n)%nat).
Proof.
  split; [|split].
  - intros desc msgs m m' last ret H0 Ht.
    apply (max_spi_transfer_config_calls _ _ _ _ _ _ H0) in Ht as (C & _).
    exact C.
  - intros dev calls m m' rets last n c Hdev H0 Ht Hz Hcs.
    rewrite (transfer_each_config_calls dev _ _ _ _ _ Hdev H0 Ht Hz), Hcs.
    rewrite changes_replicate. reflexivity.
  - intros dev calls m m' rets last n a b Hdev H0 Ht Hz Hcs Hne.
    rewrite (transfer_each_config_calls dev _ _ _ _ _ Hdev H0 Ht Hz), Hcs.
    rewrite changes_alternate by assumption. reflexivity.
Qed.

(** C9.  [max_spi_write_and_read] on a handle, a buffer and a byte count is
    [max_spi_transfer] on the one-message sequence made of the spec's
    full-duplex message: same result and same final state, the trace of
    hardware operations included.  The transaction requested for that
    message sends from and receives into the given buffer, the byte count in
    both directions (none for a NULL buffer), chip select deasserted
    afterwards. *)
Theorem C9_write_and_read_is_single_transfer
    (desc : option no_os_spi_desc) (data n : Z) (m : machine X) :
  max_spi_write_and_read desc data n m =
    max_spi_transfer desc (Some [full_duplex_message data n]) m
  /\ forall d, request_of d (full_duplex_message data n) =
       {| spi := device_id d; ssIdx := chip_select d; ssDeassert := 1;
          txData := data; rxData := data;
          txLen := if data =? 0 then 0 else n;
          rxLen := if data =? 0 then 0 else n;
          txCnt := 0; rxCnt := 0 |}.
Proof. split; [reflexivity | intros d; reflexivity]. Qed.

End Transfer_properties.

(** ** The tick conversion *)

Lemma first_ticks_delay_zero (msg : no_os_spi_msg) (ticks_ns : Z) :
  cs_delay_first msg = 0 -> first_ticks_delay msg ticks_ns = Some 1.
Proof. unfold first_ticks_delay. intros ->. reflexivity. Qed.

Lemma first_ticks_delay_nonzero (msg : no_os_spi_msg) (ticks_ns : Z) :
  cs_delay_first msg <> 0 ->
  first_ticks_delay msg ticks_ns
  = udiv ((cs_delay_first msg * 1000) mod 2 ^ 32) ticks_ns.
Proof.
  unfold first_ticks_delay. intros Hd.
  destruct (Z.eqb_spec (cs_delay_first msg) 0); [contradiction|reflexivity].
Qed.

Lemma last_ticks_delay_first_zero (msg : no_os_spi_msg) (ticks_ns : Z) :
  cs_delay_first msg = 0 -> last_ticks_delay msg ticks_ns = Some 1.
Proof. unfold last_ticks_delay. intros ->. reflexivity. Qed.

Lemma last_ticks_delay_first_nonzero (msg : no_os_spi_msg) (ticks_ns : Z) :
  cs_delay_first msg <> 0 ->
  last_ticks_delay msg ticks_ns
  = udiv ((cs_delay_last msg * 1000) mod 2 ^ 32) ticks_ns.
Proof.
  unfold last_ticks_delay. intros Hd.
  destruct (Z.eqb_spec (cs_delay_first msg) 0); [contradiction|reflexivity].
Qed.

(** Below the wrap-around of the product, a delay of 1 us or more converts
    monotonically. *)
Lemma first_ticks_delay_monotone (m1 m2 : no_os_spi_msg) (t t1 t2 : Z) :
  0 < t ->
  1 <= cs_delay_first m1 <= cs_delay_first m2 ->
  cs_delay_first m2 <= 4294967 ->
  first_ticks_delay m1 t = Some t1 ->
  first_ticks_delay m2 t = Some t2 ->
  t1 <= t2.
Proof.
  intros Ht Hd Hmax.
  rewrite !first_ticks_delay_nonzero by lia. unfold udiv.
  destruct (Z.eqb_spec t 0); [lia|].
  rewrite !Z.mod_small by lia.
  intros [= <-] [= <-]. apply Z.div_le_mono; lia.
Qed.

(** With a tick period of at most 1000 ns the substitution of 1 for the
    delay 0 does not break monotonicity. *)
Lemma first_ticks_delay_monotone_from_zero
    (m1 m2 : no_os_spi_msg) (t t1 t2 : Z) :
  0 < t <= 1000 ->
  0 <= cs_delay_first m1 <= cs_delay_first m2 ->
  cs_delay_first m2 <= 4294967 ->
  first_ticks_delay m1 t = Some t1 ->
  first_ticks_delay m2 t = Some t2 ->
  t1 <= t2.
Proof.
  intros Ht Hd Hmax H1 H2.
  destruct (Z.eq_dec (cs_delay_first m1) 0) as [E1|E1].
  - rewrite first_ticks_delay_zero in H1 by assumption.
    injection H1 as <-.
    destruct (Z.eq_dec (cs_delay_first m2) 0) as [E2|E2].
    + rewrite first_ticks_delay_zero in H2 by assumption.
      injection H2 as <-. lia.
    + rewrite first_ticks_delay_nonzero in H2 by assumption.
      unfold udiv in H2. destruct (Z.eqb_spec t 0); [lia|].
      rewrite Z.mod_small in H2 by lia. injection H2 as <-.
      apply Z.div_le_lower_bound; lia.
  - eapply first_ticks_delay_monotone; try eassumption; lia.
Qed.

(** A clock between 1 Hz and 2 GHz has a tick period of at least 1 ns: no
    division by zero. *)
Lemma ticks_ns_of_defined (clk_rate : Z) :
  1 <= clk_rate <= 2000000000 ->
  exists t, ticks_ns_of clk_rate = Some t /\ 1 <= t.
Proof.
  intros Hc. unfold ticks_ns_of, NO_OS_DIV_ROUND_CLOSEST, udiv, NANO.
  destruct (Z.eqb_spec clk_rate 0); [lia|].
  eexists. split; [reflexivity|].
  assert (Hh : 0 <= clk_rate / 2 <= 1000000000).
  { split; [apply Z.div_pos; lia|].
    apply Z.div_le_upper_bound; lia. }
  unfold u32. rewrite Z.mod_small by lia.
  apply Z.div_le_lower_bound; [lia|].
  pose proof (Z.mul_div_le clk_rate 2 ltac:(lia)).
  pose proof (Z.mod_pos_bound clk_rate 2 ltac:(lia)).
  pose proof (Z.div_mod clk_rate 2 ltac:(lia)). lia.
Qed.

Section Delay_defined.

Context {X : Type} `{!HAL X}.

Lemma delay_first_block_defined desc msg st t (m : machine X) cache :
  t <> 0 ->
  read_sstime (device_id desc) m = Some cache ->
  delay_first_block desc msg st t m <> Undefined.
Proof.
  intros Ht Hr. unfold delay_first_block, first_ticks_delay, udiv.
  destruct (negb _); [|discriminate].
  destruct (Z.eqb_spec t 0); [contradiction|].
  destruct (cs_delay_first msg =? 0).
  - destruct (1 >? MAX_DELAY_SCLK); [discriminate|].
    destruct (write_field_defined (device_id desc) MXC_F_SPI_SSTIME_PRE 1
                cache m Hr) as [m1 ->].
    discriminate.
  - destruct (_ >? MAX_DELAY_SCLK); [discriminate|].
    destruct (write_field_defined (device_id desc) MXC_F_SPI_SSTIME_PRE
                (u32 (cs_delay_first msg * NS_PER_US) / t) cache m Hr)
      as [m1 ->].
    discriminate.
Qed.

Lemma delay_last_block_defined desc msg st t (m : machine X) cache :
  t <> 0 ->
  read_sstime (device_id desc) m = Some cache ->
  delay_last_block desc msg st t m <> Undefined.
Proof.
  intros Ht Hr. unfold delay_last_block, last_ticks_delay, udiv.
  destruct (negb _); [|discriminate].
  destruct (Z.eqb_spec t 0); [contradiction|].
  destruct (cs_delay_first msg =? 0).
  - destruct (1 >? MAX_DELAY_SCLK); [discriminate|].
    destruct (write_field_defined (device_id desc) MXC_F_SPI_SSTIME_POST 1
                cache m Hr) as [m1 ->].
    discriminate.
  - destruct (_ >? MAX_DELAY_SCLK); [discriminate|].
    destruct (write_field_defined (device_id desc) MXC_F_SPI_SSTIME_POST
                (u32 (cs_delay_last msg * NS_PER_US) / t) cache m Hr)
      as [m1 ->].
    discriminate.
Qed.

Lemma delay_blocks_defined desc msg st t (m : machine X) cache :
  t <> 0 ->
  read_sstime (device_id desc) m = Some cache ->
  delay_blocks desc msg st t m <> Undefined.
Proof.
  intros Ht Hr. unfold delay_blocks.
  pose proof (delay_first_block_defined desc msg st t m cache Ht Hr) as D1.
  pose proof (delay_first_block_inv desc msg st t m) as I1.
  destruct (delay_first_block desc msg st t m) as [m1|m1|];
    [|discriminate|contradiction].
  destruct I1 as [Hs _].
  destruct (read_sstime_defined _ _ _ _ Hs Hr) as [r Hr1].
  exact (delay_last_block_defined desc msg st t m1 r Ht Hr1).
Qed.

(** With the private state in place, the register present and a clock
    between 1 Hz and 2 GHz, the delay applier returns. *)
Lemma max_delay_config_defined desc msg (m : machine X) st cache :
  heap m !! extra desc = Some st ->
  read_sstime (device_id desc) m = Some cache ->
  1 <= u32 (MXC_SPI_GetPeripheralClock (device_id desc) (periph m))
    <= 2000000000 ->
  is_Some (_max_delay_config desc msg m).
Proof.
  intros Hst Hr Hc. unfold _max_delay_config. rewrite Hst. simpl.
  destruct (_ && _); [eauto|]. rewrite Hr. simpl.
  destruct (ticks_ns_of_defined _ Hc) as (t & -> & Ht). simpl.
  pose proof (delay_blocks_defined desc msg st t m cache ltac:(lia) Hr) as D.
  destruct (delay_blocks desc msg st t m); [eauto|eauto|contradiction].
Qed.

End Delay_defined.

(** C1.  The zero test of the last-delay block reads the first-delay field
    (line 115).  A message whose first delay is 0 gets 1 tick for its last
    delay whatever that delay is: 2 us at a 20 ns tick period give 1 tick
    and not 100.  A message whose last delay is 0 and whose first delay is
    not gets the quotient 0, not the minimum of 1: with cached delays
    (5, 3) and a 50 MHz clock, the message (5, 0) is accepted and leaves 0
    in the POST field of sstime. *)
Theorem C1_last_zero_check_reads_first_field :
  (forall last ticks_ns,
     last_ticks_delay (msg_delays 0 last) ticks_ns = Some 1) /\
  last_ticks_delay (msg_delays 0 2) 20 = Some 1 /\
  udiv (u32 (2 * NS_PER_US)) 20 = Some 100 /\
  last_ticks_delay (msg_delays 5 0) 20 = Some 0 /\
  exists m',
    _max_delay_config (sim_desc 0) (msg_delays 5 0)
      (sim_machine 50000000 0 [] 5 3) = Some m' /\
    no_os_field_get MXC_F_SPI_SSTIME_POST <$> read_sstime 0 m' = Some 0 /\
    heap m' !! 100 = Some (sim_state 5 0) /\
    trace m' = [].
Proof.
  split; [intros last ticks_ns; reflexivity|].
  repeat (split; [reflexivity|]).
  eexists. split; [reflexivity|].
  repeat split; reflexivity.
Qed.

(** C3.  The tick count is the truncated quotient (lines 100 and 118); only
    the tick period of line 90 is rounded.  At a 6.25 MHz clock the period
    is 160 ns exactly; a delay of 3 us is 3000 / 160 = 18.75 periods, for
    which the code computes 18 ticks where rounding to the nearest gives
    19, and 19 ticks are closer to the request than 18.  The message (3, 3)
    leaves 18 in both fields of sstime. *)
Theorem C3_ticks_are_truncated :
  ticks_ns_of 6250000 = Some 160 /\
  160 * 6250000 = NANO /\
  first_ticks_delay (msg_delays 3 3) 160 = Some 18 /\
  last_ticks_delay (msg_delays 3 3) 160 = Some 18 /\
  rounded_ticks 3 160 = Some 19 /\
  Z.abs (19 * 160 - 3 * NS_PER_US) < Z.abs (18 * 160 - 3 * NS_PER_US) /\
  exists m',
    _max_delay_config (sim_desc 0) (msg_delays 3 3)
      (sim_machine 6250000 0 [] 0 0) = Some m' /\
    no_os_field_get MXC_F_SPI_SSTIME_PRE <$> read_sstime 0 m' = Some 18 /\
    no_os_field_get MXC_F_SPI_SSTIME_POST <$> read_sstime 0 m' = Some 18.
Proof.
  repeat (split; [reflexivity|]).
  eexists. split; [reflexivity|].
  repeat split; reflexivity.
Qed.

(** C4.  The raw value 0 is written.  With cached delays (5, 3) and a
    50 MHz clock the message (5, 0) is accepted, the cache takes its
    delays, and the POST field of sstime holds 0.  With cached delays
    (0, 0) and a 500 kHz clock, a tick period of 2000 ns, the message
    (1, 0) is accepted and the PRE field holds 0, the quotient 1000 / 2000;
    so does a first delay of 536870912 us at 50 MHz, whose product with
    1000 is 0 modulo 2^32. *)
Theorem C4_zero_ticks_written :
  (exists m',
     _max_delay_config (sim_desc 0) (msg_delays 5 0)
       (sim_machine 50000000 0 [] 5 3) = Some m' /\
     heap m' !! 100 = Some (sim_state 5 0) /\ trace m' = [] /\
     read_sstime 0 m' = Some 0x010001 /\
     no_os_field_get MXC_F_SPI_SSTIME_POST 0x010001 = 0) /\
  (exists m',
     _max_delay_config (sim_desc 0) (msg_delays 1 0)
       (sim_machine 500000 0 [] 0 0) = Some m' /\
     heap m' !! 100 = Some (sim_state 1 0) /\ trace m' = [] /\
     read_sstime 0 m' = Some 0x010100 /\
     no_os_field_get MXC_F_SPI_SSTIME_PRE 0x010100 = 0) /\
  (exists m',
     _max_delay_config (sim_desc 0) (msg_delays 536870912 0)
       (sim_machine 50000000 0 [] 0 0) = Some m' /\
     heap m' !! 100 = Some (sim_state 536870912 0) /\ trace m' = [] /\
     read_sstime 0 m' = Some 0x010100 /\
     no_os_field_get MXC_F_SPI_SSTIME_PRE 0x010100 = 0).
Proof.
  repeat split; (eexists; split; [reflexivity|]; repeat split; reflexivity).
Qed.

(** C6.  At a 500 kHz clock the tick period is 2000 ns; the delay 0 gives
    1 tick and the larger delay 1 us gives 0 ticks, both within the
    255-tick maximum: the tick count decreases from 0 us to 1 us.  The
    delay 0 gives 1 tick in the first-delay block at every tick period; in
    the last-delay block a last delay of 0 gives 0 ticks when the first
    delay is not 0. *)
Theorem C6_ticks_not_monotone_at_slow_clock :
  ticks_ns_of 500000 = Some 2000 /\
  first_ticks_delay (msg_delays 0 0) 2000 = Some 1 /\
  first_ticks_delay (msg_delays 1 0) 2000 = Some 0 /\
  exceeds (first_ticks_delay (msg_delays 0 0) 2000) = false /\
  exceeds (first_ticks_delay (msg_delays 1 0) 2000) = false /\
  (forall last ticks_ns,
     first_ticks_delay (msg_delays 0 last) ticks_ns = Some 1) /\
  last_ticks_delay (msg_delays 5 0) 20 = Some 0.
Proof.
  repeat (split; [reflexivity|]). reflexivity.
Qed.

(** C10.  The product of the delay and [NS_PER_US] is taken modulo 2^32
    before the division, in both blocks.  The first delay 4294968 us is
    above 4294967 us, its product with 1000 is above 2^32 and wraps to 704;
    at a 50 MHz clock, a tick period of 20 ns, the conversion gives 35
    ticks, within the maximum, where the exact quotient is far above it.
    The delay is accepted: no warning, 35 in the PRE field of sstime, and
    the delay in the cache. *)
Theorem C10_delay_product_wraps :
  (forall msg ticks_ns,
     first_ticks_delay msg ticks_ns =
       if cs_delay_first msg =? 0 then Some 1
       else udiv ((cs_delay_first msg * 1000) mod 2 ^ 32) ticks_ns) /\
  (forall msg ticks_ns,
     last_ticks_delay msg ticks_ns =
       if cs_delay_first msg =? 0 then Some 1
       else udiv ((cs_delay_last msg * 1000) mod 2 ^ 32) ticks_ns) /\
  exists d,
    4294967 < d < 2 ^ 32 /\
    2 ^ 32 <= d * NS_PER_US /\
    u32 (d * NS_PER_US) = 704 /\
    ticks_ns_of 50000000 = Some 20 /\
    first_ticks_delay (msg_delays d 0) 20 = Some 35 /\
    exceeds (first_ticks_delay (msg_delays d 0) 20) = false /\
    MAX_DELAY_SCLK < d * NS_PER_US / 20 /\
    exists m',
      _max_delay_config (sim_desc 0) (msg_delays d 0)
        (sim_machine 50000000 0 [] 0 0) = Some m' /\
      no_os_field_get MXC_F_SPI_SSTIME_PRE <$> read_sstime 0 m' = Some 35 /\
      heap m' !! 100 = Some (sim_state d 0) /\
      trace m' = [].
Proof.
  split; [intros msg ticks_ns; reflexivity|].
  split; [intros msg ticks_ns; reflexivity|].
  exists 4294968.
  split; [split; reflexivity|].
  split; [discriminate|].
  repeat (split; [reflexivity|]).
  eexists. split; [reflexivity|].
  repeat split; reflexivity.
Qed.

(** ** The properties on the scripted peripheral *)

(** C2.  The results E_BAD_PARAM and E_BAD_STATE of a hardware transaction
    end the call with -EINVAL and -EBUSY, the second message not being
    executed.  Any other non-zero result is ignored: when the first of two
    transactions returns -1, which is neither of the two codes,
    [max_spi_transfer] makes the pacing delay, executes the second
    transaction and returns 0, where the claim has the call abort and
    return the failure. *)
Theorem C2_other_failure_codes_ignored :
  (exists m',
     max_spi_transfer (Some (sim_desc 0))
       (Some [msg_delays 0 0; msg_delays 0 0]) sim_bad_param
       = Some (- EINVAL, m') /\
     requests (trace m') = [request_of (sim_desc 0) (msg_delays 0 0)] /\
     udelays (trace m') = []) /\
  (exists m',
     max_spi_transfer (Some (sim_desc 0))
       (Some [msg_delays 0 0; msg_delays 0 0]) sim_busy
       = Some (- EBUSY, m') /\
     requests (trace m') = [request_of (sim_desc 0) (msg_delays 0 0)] /\
     udelays (trace m') = []) /\
  fst (MXC_SPI_MasterTransaction
         (request_of (sim_desc 0) (msg_delays 0 0)) (periph sim_faulty)) = -1
  /\ -1 <> 0 /\ -1 <> E_BAD_PARAM /\ -1 <> E_BAD_STATE
  /\ exists m',
       max_spi_transfer (Some (sim_desc 0))
         (Some [msg_delays 0 0; msg_delays 0 0]) sim_faulty = Some (0, m')
       /\ requests (trace m') = [request_of (sim_desc 0) (msg_delays 0 0);
                                 request_of (sim_desc 0) (msg_delays 0 0)]
       /\ udelays (trace m') = [0; 0].
Proof.
  split; [eexists; split; [vm_compute; reflexivity | split; reflexivity]|].
  split; [eexists; split; [vm_compute; reflexivity | split; reflexivity]|].
  split; [reflexivity|].
  split; [discriminate|]. split; [discriminate|]. split; [discriminate|].
  eexists. split; [vm_compute; reflexivity | split; reflexivity].
Qed.

(** C7 on the scripted peripheral: the table is zeroed, the handle is on
    chip select 1, the configuration succeeds. *)
Lemma C7_witness :
  max_spi_transfer (Some (sim_desc 1)) (Some [msg_delays 0 0]) sim_reset =
    transfer_loop (sim_desc 1) [msg_delays 0 0]
      (set_last_slave_id 0 1 (sim_configured (sim_desc 1) sim_reset))
  /\ forall r m',
       max_spi_transfer (Some (sim_desc 1)) (Some [msg_delays 0 0]) sim_reset
         = Some (r, m') ->
       last_slave_id m' = <[0%nat := 1]> (last_slave_id sim_reset) /\
       last_slave_id m' !! 0%nat = Some 1.
Proof.
  refine (proj2 (proj2 (proj2
            (C7_reconfigure_on_chip_select_change (sim_desc 1)
               [msg_delays 0 0] sim_reset
               (sim_configured (sim_desc 1) sim_reset) 0 0 _ _ _))) _).
  - reflexivity.
  - simpl. lia.
  - reflexivity.
  - reflexivity.
Defined.

(** C8 as worded fails.  From the zeroed table, three messages in one call
    on chip select 0, and three calls on chip select 0, never run the bus
    configuration step; four calls alternating between chip selects 0 and 1
    run it three times. *)
Lemma C8_counterexample :
  (exists m',
     max_spi_transfer (Some (sim_desc 0))
       (Some [msg_delays 0 0; msg_delays 0 0; msg_delays 0 0]) sim_reset
       = Some (0, m')
     /\ config_calls (trace m') = 0%nat) /\
  (exists m',
     transfer_each [(sim_desc 0, [msg_delays 0 0]);
                    (sim_desc 0, [msg_delays 0 0]);
                    (sim_desc 0, [msg_delays 0 0])] sim_reset
       = Some ([0; 0; 0], m')
     /\ config_calls (trace m') = 0%nat) /\
  (exists m',
     transfer_each [(sim_desc 0, [msg_delays 0 0]);
                    (sim_desc 1, [msg_delays 0 0]);
                    (sim_desc 0, [msg_delays 0 0]);
                    (sim_desc 1, [msg_delays 0 0])] sim_reset
       = Some ([0; 0; 0; 0], m')
     /\ config_calls (trace m') = 3%nat).
Proof.
  split; [|split]; (eexists; split; [vm_compute; reflexivity|reflexivity]).
Qed.

(** C8, amended, on the scripted peripheral: from the zeroed table, three
    calls on chip select 1 configure the bus once, and four calls alternating
    between chip selects 1 and 0 configure it four times. *)
Lemma C8_witness :
  config_calls
    (trace (sim_after_each [(sim_desc 1, [msg_delays 0 0]);
                            (sim_desc 1, [msg_delays 0 0]);
                            (sim_desc 1, [msg_delays 0 0])] sim_reset))
  = (config_calls (trace sim_reset) + 1)%nat
  /\
  config_calls
    (trace (sim_after_each [(sim_desc 1, [msg_delays 0 0]);
                            (sim_desc 0, [msg_delays 0 0]);
                            (sim_desc 1, [msg_delays 0 0]);
                            (sim_desc 0, [msg_delays 0 0])] sim_reset))
  = (config_calls (trace sim_reset) + 4)%nat.
Proof.
  split.
  - refine (proj1 (proj2 (C8_configuration_count (X := sim)))
              0 [(sim_desc 1, [msg_delays 0 0]);
                 (sim_desc 1, [msg_delays 0 0]);
                 (sim_desc 1, [msg_delays 0 0])]
              sim_reset _ [0; 0; 0] 0 2%nat 1 _ _ _ _ _).
    + repeat constructor.
    + reflexivity.
    + reflexivity.
    + repeat constructor.
    + reflexivity.
  - refine (proj2 (proj2 (C8_configuration_count (X := sim)))
              0 [(sim_desc 1, [msg_delays 0 0]);
                 (sim_desc 0, [msg_delays 0 0]);
                 (sim_desc 1, [msg_delays 0 0]);
                 (sim_desc 0, [msg_delays 0 0])]
              sim_reset _ [0; 0; 0; 0] 0 3%nat 1 0 _ _ _ _ _ _).
    + repeat constructor.
    + reflexivity.
    + reflexivity.
    + repeat constructor.
    + reflexivity.
    + lia.
Defined.

(** ** The bus configuration step in full *)

Section Configuration.

Context {X : Type} `{!HAL X}.

(** The runs of [_max_spi_config]: all four calls made and 0 returned; the
    mode outside the enumeration, -EINVAL returned right after
    MXC_SPI_Init; or a call refused, the instance shut down and -EINVAL
    returned. *)
Lemma max_spi_config_cases desc (m m1 : machine X) ret :
  _max_spi_config desc m = Some (ret, m1) ->
  exists st, heap m !! extra desc = Some st /\
    ((ret = 0 /\ exists md, hw_mode (mode desc) = Some md /\
        trace m1 = trace m ++
          [init_event desc st; EvSetMode (device_id desc) md;
           EvSetWidth (device_id desc) SPI_WIDTH_STANDARD;
           EvSetDataSize (device_id desc) 8])
     \/ (ret = - EINVAL /\ hw_mode (mode desc) = None /\
         trace m1 = trace m ++ [init_event desc st])
     \/ (ret = - EINVAL /\ exists pre,
           trace m1 = trace m ++ init_event desc st :: pre
                              ++ [EvShutdown (device_id desc)] /\
           (pre = [] \/
            exists md, hw_mode (mode desc) = Some md /\
              (pre = [EvSetMode (device_id desc) md] \/
               pre = [EvSetMode (device_id desc) md;
                      EvSetWidth (device_id desc) SPI_WIDTH_STANDARD] \/
               pre = [EvSetMode (device_id desc) md;
                      EvSetWidth (device_id desc) SPI_WIDTH_STANDARD;
                      EvSetDataSize (device_id desc) 8])))).
Proof.
  unfold _max_spi_config.
  destruct (heap m !! extra desc) as [st|]; simpl; [|discriminate].
  intros Hc. exists st. split; [reflexivity|]. revert Hc.
  destruct (call _ _ m) as [r0 m0] eqn:E0.
  apply call_inv in E0 as (_ & _ & T0 & _).
  fold (init_event desc st) in T0.
  destruct (negb (r0 =? 0)).
  { intros [= E]. apply err_init_inv in E as (-> & _ & _ & T).
    right. right. split; [reflexivity|]. exists [].
    rewrite T, T0, <- app_assoc. auto. }
  match goal with
  | |- context [match ?sm with Some _ => _ | None => _ end = _] =>
      change sm with (hw_mode (mode desc));
      destruct (hw_mode (mode desc)) as [md|] eqn:Hm
  end.
  2:{ intros [= <- <-]. right. left. auto. }
  destruct (call _ _ m0) as [r1 m2] eqn:E1.
  apply call_inv in E1 as (_ & _ & T1 & _).
  destruct (negb (r1 =? 0)).
  { intros [= E]. apply err_init_inv in E as (-> & _ & _ & T).
    right. right. split; [reflexivity|].
    exists [EvSetMode (device_id desc) md].
    rewrite T, T1, T0, <- !app_assoc. split; [reflexivity|]. eauto 10. }
  destruct (call _ _ m2) as [r2 m3] eqn:E2.
  apply call_inv in E2 as (_ & _ & T2 & _).
  destruct (negb (r2 =? 0)).
  { intros [= E]. apply err_init_inv in E as (-> & _ & _ & T).
    right. right. split; [reflexivity|].
    exists [EvSetMode (device_id desc) md;
            EvSetWidth (device_id desc) SPI_WIDTH_STANDARD].
    rewrite T, T2, T1, T0, <- !app_assoc. split; [reflexivity|]. eauto 10. }
  destruct (call _ _ m3) as [r3 m4] eqn:E3.
  apply call_inv in E3 as (_ & _ & T3 & _).
  destruct (negb (r3 =? 0)).
  { intros [= E]. apply err_init_inv in E as (-> & _ & _ & T).
    right. right. split; [reflexivity|].
    exists [EvSetMode (device_id desc) md;
            EvSetWidth (device_id desc) SPI_WIDTH_STANDARD;
            EvSetDataSize (device_id desc) 8].
    rewrite T, T3, T2, T1, T0, <- !app_assoc. split; [reflexivity|].
    eauto 10. }
  intros [= <- <-]. left. split; [reflexivity|]. exists md.
  rewrite T3, T2, T1, T0, <- !app_assoc. auto.
Qed.

Lemma hw_mode_swap (mode md : Z) :
  hw_mode mode = Some md ->
  (mode = NO_OS_SPI_MODE_0 /\ md = 0) \/ (mode = NO_OS_SPI_MODE_1 /\ md = 2) \/
  (mode = NO_OS_SPI_MODE_2 /\ md = 1) \/ (mode = NO_OS_SPI_MODE_3 /\ md = 3).
Proof.
  unfold hw_mode, NO_OS_SPI_MODE_0, NO_OS_SPI_MODE_1, NO_OS_SPI_MODE_2,
    NO_OS_SPI_MODE_3, SPI_MODE_1, SPI_MODE_2.
  destruct (Z.eqb_spec mode 1); [intros [= <-]; lia|].
  destruct (Z.eqb_spec mode 2); [intros [= <-]; lia|].
  destruct (Z.eqb_spec mode 0); destruct (Z.eqb_spec mode 3); simpl;
    intros [= <-]; lia.
Qed.


(** X1.  A bus configuration step that returns 0 has made exactly four
    calls, in this order: MXC_SPI_Init in master, single-line mode with the
    parameters of the handle, MXC_SPI_SetMode, MXC_SPI_SetWidth with the
    standard width and MXC_SPI_SetDataSize with 8 bits; the mode of the
    handle is one of the four of the enumeration, and the hardware gets
    mode 2 for mode 1 and mode 1 for mode 2, modes 0 and 3 as they are. *)
Theorem X1_config_success_sequence desc (m m1 : machine X) :
  _max_spi_config desc m = Some (0, m1) ->
  exists st md,
    heap m !! extra desc = Some st /\
    trace m1 = trace m ++
      [init_event desc st; EvSetMode (device_id desc) md;
       EvSetWidth (device_id desc) SPI_WIDTH_STANDARD;
       EvSetDataSize (device_id desc) 8] /\
    ((mode desc = 0 /\ md = 0) \/ (mode desc = 1 /\ md = 2) \/
     (mode desc = 2 /\ md = 1) \/ (mode desc = 3 /\ md = 3)).
Proof.
  intros Hc. apply max_spi_config_cases in Hc as (st & Hst & Hcases).
  exists st.
  destruct Hcases as [(_ & md & Hm & T) | [(E & _) | (E & _)]];
    [|discriminate E..].
  exists md. split; [exact Hst|]. split; [exact T|].
  exact (hw_mode_swap _ _ Hm).
Qed.



(** The step makes no transaction and no pacing delay. *)
Lemma max_spi_config_quiet desc (m m1 : machine X) ret :
  _max_spi_config desc m = Some (ret, m1) ->
  requests (trace m1) = requests (trace m) /\
  udelays (trace m1) = udelays (trace m).
Proof.
  intros Hc. apply max_spi_config_cases in Hc as (st & _ & Hcases).
  unfold requests, udelays.
  destruct Hcases as [(_ & md & _ & T) | [(_ & _ & T) | (_ & pre & T & Hpre)]];
    rewrite T, !omap_app.
  - simpl. rewrite !app_nil_r. auto.
  - simpl. rewrite !app_nil_r. auto.
  - destruct Hpre as [-> | (md & _ & [-> | [-> | ->]])]; simpl;
      rewrite !app_nil_r; auto.
Qed.

End Configuration.

(** ** The order of transactions and pacing delays *)

Section Transfer_trace.

Context {X : Type} `{!HAL X}.

Lemma max_delay_config_quiet desc msg (m m' : machine X) :
  _max_delay_config desc msg m = Some m' ->
  requests (trace m') = requests (trace m) /\
  udelays (trace m') = udelays (trace m).
Proof.
  unfold _max_delay_config.
  destruct (heap m !! extra desc) as [st|]; simpl; [|discriminate].
  destruct (_ && _); [intros [= <-]; auto|].
  destruct (read_sstime (device_id desc) m) as [cache|]; simpl; [|discriminate].
  destruct (ticks_ns_of _) as [ticks_ns|]; simpl; [|discriminate].
  pose proof (delay_blocks_inv desc msg st ticks_ns m) as Hb.
  destruct (delay_blocks desc msg st ticks_ns m) as [m1|m1|]; [| |discriminate].
  - destruct Hb as [_ T]. intros [= <-]. simpl. rewrite T. auto.
  - destruct Hb as [_ [text T]]. intros [= <-]. simpl. rewrite T.
    unfold requests, udelays. rewrite !omap_app. simpl.
    rewrite !app_nil_r. auto.
Qed.

(** The loop: [k] transactions, those of the first [k] messages in order;
    all of them when it returns 0; otherwise at least one, the last being
    the refused one, with no pacing delay after it. *)
Lemma transfer_loop_trace desc msgs : forall (m m' : machine X) (ret : Z),
  transfer_loop desc msgs m = Some (ret, m') ->
  exists k : nat,
    (k <= length msgs)%nat /\
    requests (trace m') =
      requests (trace m) ++ (request_of desc <$> take k msgs) /\
    (ret = 0 ->
     k = length msgs /\
     udelays (trace m') = udelays (trace m) ++ (cs_change_delay <$> msgs)) /\
    (ret <> 0 ->
     (1 <= k)%nat /\
     udelays (trace m') =
       udelays (trace m) ++ (cs_change_delay <$> take (k - 1) msgs)).
Proof.
  induction msgs as [|msg rest IH]; intros m m' ret; simpl.
  { intros [= <- <-]. exists 0%nat. simpl. rewrite !app_nil_r.
    split; [lia|]. split; [reflexivity|]. split; [auto|].
    intros; contradiction. }
  destruct (_max_delay_config desc msg m) as [m1|] eqn:D; simpl; [|discriminate].
  apply max_delay_config_quiet in D as (R1 & U1).
  destruct (call _ _ m1) as [r m2] eqn:E.
  apply call_inv in E as (_ & _ & T2 & _).
  assert (R2 : requests (trace m2) = requests (trace m) ++ [request_of desc msg]).
  { rewrite T2. unfold requests in *. rewrite omap_app, R1. reflexivity. }
  assert (U2 : udelays (trace m2) = udelays (trace m)).
  { rewrite T2. unfold udelays in *. rewrite omap_app, U1. simpl.
    apply app_nil_r. }
  assert (Hstop : forall e, e <> 0 -> Some (e, m2) = Some (ret, m') ->
            exists k : nat,
              (k <= S (length rest))%nat /\
              requests (trace m') =
                requests (trace m) ++ (request_of desc <$> take k (msg :: rest)) /\
              (ret = 0 ->
               k = S (length rest) /\
               udelays (trace m') =
                 udelays (trace m) ++ (cs_change_delay <$> msg :: rest)) /\
              (ret <> 0 ->
               (1 <= k)%nat /\
               udelays (trace m') =
                 udelays (trace m)
                 ++ (cs_change_delay <$> take (k - 1) (msg :: rest)))).
  { intros e He [= <- <-]. exists 1%nat. simpl. rewrite ?take_0. simpl.
    rewrite app_nil_r. split; [lia|]. split; [exact R2|].
    split; [intros; contradiction|]. intros _. split; [lia | exact U2]. }
  destruct (r =? E_BAD_PARAM); [apply Hstop; discriminate|].
  destruct (r =? E_BAD_STATE); [apply Hstop; discriminate|].
  intros Hl. apply IH in Hl as (k & Hk & R & H0 & Hne).
  simpl in R, H0, Hne.
  assert (R3 : requests (trace m2 ++ [EvUdelay (cs_change_delay msg)])
               = requests (trace m) ++ [request_of desc msg]).
  { unfold requests in *. rewrite omap_app, R2. simpl. apply app_nil_r. }
  assert (U3 : udelays (trace m2 ++ [EvUdelay (cs_change_delay msg)])
               = udelays (trace m) ++ [cs_change_delay msg]).
  { unfold udelays in *. rewrite omap_app, U2. reflexivity. }
  rewrite R3 in R. rewrite U3 in H0, Hne.
  exists (S k). simpl. split; [lia|].
  split; [rewrite R, <- app_assoc; reflexivity|].
  split.
  - intros Hz. destruct (H0 Hz) as [-> U]. split; [reflexivity|].
    rewrite U, <- app_assoc. reflexivity.
  - intros Hz. destruct (Hne Hz) as [Hk1 U]. split; [lia|].
    rewrite U, <- app_assoc. rewrite Nat.sub_0_r.
    destruct k as [|k']; [lia|]. simpl. rewrite Nat.sub_0_r. reflexivity.
Qed.

(** X3.  Whatever a call of [max_spi_transfer] returns, the hardware
    transactions it has executed are those of the first [k] messages, in
    the order of the messages and one for each, every request built from
    the handle and the message as [request_of] does; when the call returns
    0, [k] is the number of messages. *)
Theorem X3_transactions_follow_messages desc msgs (m m' : machine X) ret :
  max_spi_transfer (Some desc) (Some msgs) m = Some (ret, m') ->
  exists k : nat,
    (k <= length msgs)%nat /\
    requests (trace m') =
      requests (trace m) ++ (request_of desc <$> take k msgs) /\
    (ret = 0 -> k = length msgs).
Proof.
  unfold max_spi_transfer.
  destruct (last_slave_id m !! Z.to_nat (device_id desc)) as [last|]; simpl;
    [|discriminate].
  assert (Hloop : forall m0 : machine X,
            requests (trace m0) = requests (trace m) ->
            transfer_loop desc msgs m0 = Some (ret, m') ->
            exists k : nat,
              (k <= length msgs)%nat /\
              requests (trace m') =
                requests (trace m) ++ (request_of desc <$> take k msgs) /\
              (ret = 0 -> k = length msgs)).
  { intros m0 R0 Hl. apply transfer_loop_trace in Hl as (k & Hk & R & H0 & _).
    exists k. rewrite R, R0. split; [exact Hk|]. split; [reflexivity|].
    intros Hz. apply H0, Hz. }
  destruct (negb (chip_select desc =? last)); [|apply Hloop; reflexivity].
  destruct (_max_spi_config desc m) as [[r m1]|] eqn:Hc; simpl; [|discriminate].
  apply max_spi_config_quiet in Hc as (R1 & _).
  destruct (Z.eqb_spec r 0) as [->|Hr]; simpl.
  - apply Hloop. exact R1.
  - intros [= <- <-]. exists 0%nat. rewrite ?take_0. simpl. rewrite app_nil_r.
    split; [lia|]. split; [exact R1|]. intros; contradiction.
Qed.

(** X4.  A call of [max_spi_transfer] that returns 0 has made one pacing
    delay per message, that of the message's [cs_change_delay], in the
    order of the messages, a delay of 0 included.  A call that does not
    return 0 has executed the transactions of the first [k] messages, [k]
    at most the number of messages, and made the pacing delays of the
    first [k - 1] of them only: no pacing delay follows the refused
    transaction, and none is made when no transaction is. *)
Theorem X4_pacing_delays desc msgs (m m' : machine X) ret :
  max_spi_transfer (Some desc) (Some msgs) m = Some (ret, m') ->
  (ret = 0 ->
   udelays (trace m') = udelays (trace m) ++ (cs_change_delay <$> msgs)) /\
  (ret <> 0 ->
   exists k : nat,
     (k <= length msgs)%nat /\
     requests (trace m') =
       requests (trace m) ++ (request_of desc <$> take k msgs) /\
     udelays (trace m') =
       udelays (trace m) ++ (cs_change_delay <$> take (k - 1) msgs) /\
     length (requests (trace m')) = (length (requests (trace m)) + k)%nat /\
     length (udelays (trace m')) =
       (length (udelays (trace m)) + (k - 1))%nat).
Proof.
  unfold max_spi_transfer.
  destruct (last_slave_id m !! Z.to_nat (device_id desc)) as [last|]; simpl;
    [|discriminate].
  assert (Hcount : forall k : nat,
            (k <= length msgs)%nat ->
            requests (trace m') =
              requests (trace m) ++ (request_of desc <$> take k msgs) ->
            udelays (trace m') =
              udelays (trace m) ++ (cs_change_delay <$> take (k - 1) msgs) ->
            length (requests (trace m')) = (length (requests (trace m)) + k)%nat
            /\ length (udelays (trace m')) =
                 (length (udelays (trace m)) + (k - 1))%nat).
  { intros k Hk -> ->.
    rewrite !length_app, !length_fmap, !length_take. lia. }
  assert (Hloop : forall m0 : machine X,
            requests (trace m0) = requests (trace m) ->
            udelays (trace m0) = udelays (trace m) ->
            transfer_loop desc msgs m0 = Some (ret, m') ->
            (ret = 0 ->
             udelays (trace m') =
               udelays (trace m) ++ (cs_change_delay <$> msgs)) /\
            (ret <> 0 ->
             exists k : nat,
               (k <= length msgs)%nat /\
               requests (trace m') =
                 requests (trace m) ++ (request_of desc <$> take k msgs) /\
               udelays (trace m') =
                 udelays (trace m) ++ (cs_change_delay <$> take (k - 1) msgs) /\
               length (requests (trace m')) =
                 (length (requests (trace m)) + k)%nat /\
               length (udelays (trace m')) =
                 (length (udelays (trace m)) + (k - 1))%nat)).
  { intros m0 R0 U0 Hl.
    apply transfer_loop_trace in Hl as (k & Hk & R & H0 & Hne).
    rewrite R0 in R. rewrite U0 in H0, Hne. split.
    - intros Hz. apply H0, Hz.
    - intros Hz. destruct (Hne Hz) as [_ U]. exists k.
      split; [exact Hk|]. split; [exact R|]. split; [exact U|].
      exact (Hcount k Hk R U). }
  destruct (negb (chip_select desc =? last)); [|apply Hloop; reflexivity].
  destruct (_max_spi_config desc m) as [[r m1]|] eqn:Hc; simpl; [|discriminate].
  apply max_spi_config_quiet in Hc as (R1 & U1).
  destruct (Z.eqb_spec r 0) as [->|Hr]; simpl.
  - apply Hloop; assumption.
  - intros [= <- <-]. split; [intros; contradiction|]. intros _.
    exists 0%nat. simpl. rewrite ?take_0. simpl. rewrite !app_nil_r.
    split; [lia|]. split; [exact R1|]. split; [exact U1|].
    rewrite R1, U1. split; lia.
Qed.

End Transfer_trace.

(** ** The fields of the sstime register *)

Lemma byte_as_bits (t : Z) : 0 <= t <= 255 -> t = Z.land t (Z.ones 8).
Proof.
  intros Ht. rewrite Z.land_ones by lia. rewrite Z.mod_small; [reflexivity|].
  change (2 ^ 8) with 256. lia.
Qed.

Lemma u32_as_bits (r : Z) : 0 <= r < 2 ^ 32 -> r = Z.land r (Z.ones 32).
Proof.
  intros Hr. rewrite Z.land_ones by lia. now rewrite Z.mod_small.
Qed.

Lemma bits_as_u32 (x : Z) : x = Z.land x (Z.ones 32) -> 0 <= x < 2 ^ 32.
Proof.
  intros ->. rewrite Z.land_ones by lia. apply Z.mod_pos_bound. lia.
Qed.

(** Lines 107-108 on a register value: the PRE field takes the ticks, the
    other 24 bits stay. *)
Lemma update_PRE (r t : Z) :
  0 <= r < 2 ^ 32 -> 0 <= t <= 255 ->
  let r' := Z.lor (Z.land r (u32 (Z.lnot MXC_F_SPI_SSTIME_PRE)))
                  (no_os_field_prep MXC_F_SPI_SSTIME_PRE t) in
  no_os_field_get MXC_F_SPI_SSTIME_PRE r' = t /\
  no_os_field_get MXC_F_SPI_SSTIME_POST r'
    = no_os_field_get MXC_F_SPI_SSTIME_POST r /\
  Z.shiftr r' 16 = Z.shiftr r 16 /\
  0 <= r' < 2 ^ 32.
Proof.
  intros Hr Ht. unfold no_os_field_prep, no_os_field_get.
  change (no_os_find_first_set_bit MXC_F_SPI_SSTIME_PRE) with 0.
  change (no_os_find_first_set_bit MXC_F_SPI_SSTIME_POST) with 8.
  change (u32 (Z.lnot MXC_F_SPI_SSTIME_PRE))
    with (Z.ldiff (Z.ones 32) (Z.ones 8)).
  change MXC_F_SPI_SSTIME_PRE with (Z.ones 8).
  change MXC_F_SPI_SSTIME_POST with (Z.shiftl (Z.ones 8) 8).
  rewrite Z.shiftl_0_r. unfold u32. rewrite (Z.mod_small t) by lia.
  rewrite !Z.shiftr_0_r.
  rewrite (byte_as_bits t Ht), (u32_as_bits r Hr). cbv zeta.
  split; [Z.bitblast|]. split; [Z.bitblast|]. split; [Z.bitblast|].
  apply bits_as_u32. Z.bitblast.
Qed.

(** Lines 125-126 on a register value: the POST field takes the ticks, the
    other 24 bits stay. *)
Lemma update_POST (r t : Z) :
  0 <= r < 2 ^ 32 -> 0 <= t <= 255 ->
  let r' := Z.lor (Z.land r (u32 (Z.lnot MXC_F_SPI_SSTIME_POST)))
                  (no_os_field_prep MXC_F_SPI_SSTIME_POST t) in
  no_os_field_get MXC_F_SPI_SSTIME_POST r' = t /\
  no_os_field_get MXC_F_SPI_SSTIME_PRE r'
    = no_os_field_get MXC_F_SPI_SSTIME_PRE r /\
  Z.shiftr r' 16 = Z.shiftr r 16 /\
  0 <= r' < 2 ^ 32.
Proof.
  intros Hr Ht. unfold no_os_field_prep, no_os_field_get.
  change (no_os_find_first_set_bit MXC_F_SPI_SSTIME_PRE) with 0.
  change (no_os_find_first_set_bit MXC_F_SPI_SSTIME_POST) with 8.
  change (u32 (Z.lnot MXC_F_SPI_SSTIME_POST))
    with (Z.ldiff (Z.ones 32) (Z.shiftl (Z.ones 8) 8)).
  change MXC_F_SPI_SSTIME_PRE with (Z.ones 8).
  change MXC_F_SPI_SSTIME_POST with (Z.shiftl (Z.ones 8) 8).
  assert (Hs : u32 (Z.shiftl t 8) = Z.shiftl t 8).
  { unfold u32. apply Z.mod_small. rewrite Z.shiftl_mul_pow2 by lia.
    change (2 ^ 8) with 256. lia. }
  rewrite Hs, !Z.shiftr_0_r.
  rewrite (byte_as_bits t Ht), (u32_as_bits r Hr). cbv zeta.
  split; [Z.bitblast|]. split; [Z.bitblast|]. split; [Z.bitblast|].
  apply bits_as_u32. Z.bitblast.
Qed.

Section Register_fields.

Context {X : Type} `{!HAL X}.

(** X5.  On a 32-bit register value and for a tick count from 0 to 255, the
    two statements that write a field of sstime (lines 107-108 for PRE,
    125-126 for POST) leave a register whose written field reads back as
    the tick count and whose other field and upper 16 bits are as before;
    nothing else of the machine changes. *)
Theorem X5_field_write_is_isolated (dev t r : Z) (m : machine X) :
  read_sstime dev m = Some r ->
  0 <= r < 2 ^ 32 ->
  0 <= t <= 255 ->
  (exists m' r',
     write_field dev MXC_F_SPI_SSTIME_PRE t m = Some m' /\
     read_sstime dev m' = Some r' /\
     no_os_field_get MXC_F_SPI_SSTIME_PRE r' = t /\
     no_os_field_get MXC_F_SPI_SSTIME_POST r'
       = no_os_field_get MXC_F_SPI_SSTIME_POST r /\
     Z.shiftr r' 16 = Z.shiftr r 16 /\
     same_but_sstime dev m m' /\ trace m' = trace m) /\
  (exists m' r',
     write_field dev MXC_F_SPI_SSTIME_POST t m = Some m' /\
     read_sstime dev m' = Some r' /\
     no_os_field_get MXC_F_SPI_SSTIME_POST r' = t /\
     no_os_field_get MXC_F_SPI_SSTIME_PRE r'
       = no_os_field_get MXC_F_SPI_SSTIME_PRE r /\
     Z.shiftr r' 16 = Z.shiftr r 16 /\
     same_but_sstime dev m m' /\ trace m' = trace m).
Proof.
  intros Hr Hrange Ht. split.
  - destruct (write_field_defined dev MXC_F_SPI_SSTIME_PRE t r m Hr) as [m' W].
    pose proof (write_field_inv _ _ _ _ _ W) as (Hs & T & r0 & Hr0 & Hr').
    rewrite Hr in Hr0. injection Hr0 as <-.
    destruct (update_PRE r t Hrange Ht) as (F1 & F2 & F3 & _).
    eauto 10.
  - destruct (write_field_defined dev MXC_F_SPI_SSTIME_POST t r m Hr) as [m' W].
    pose proof (write_field_inv _ _ _ _ _ W) as (Hs & T & r0 & Hr0 & Hr').
    rewrite Hr in Hr0. injection Hr0 as <-.
    destruct (update_POST r t Hrange Ht) as (F1 & F2 & F3 & _).
    eauto 10.
Qed.

End Register_fields.

(** ** The delay applier when it accepts *)

Lemma first_ticks_delay_nonneg (msg : no_os_spi_msg) (t k : Z) :
  0 < t -> first_ticks_delay msg t = Some k -> 0 <= k.
Proof.
  unfold first_ticks_delay, udiv, u32. intros Ht.
  destruct (cs_delay_first msg =? 0); [intros [= <-]; lia|].
  destruct (Z.eqb_spec t 0); [lia|]. intros [= <-].
  apply Z.div_pos; [|lia]. apply Z.mod_pos_bound. lia.
Qed.

Lemma last_ticks_delay_nonneg (msg : no_os_spi_msg) (t k : Z) :
  0 < t -> last_ticks_delay msg t = Some k -> 0 <= k.
Proof.
  unfold last_ticks_delay, udiv, u32. intros Ht.
  destruct (cs_delay_first msg =? 0); [intros [= <-]; lia|].
  destruct (Z.eqb_spec t 0); [lia|]. intros [= <-].
  apply Z.div_pos; [|lia]. apply Z.mod_pos_bound. lia.
Qed.

Section Delay_applied.

Context {X : Type} `{!HAL X}.

Lemma delay_first_block_applied desc msg st t k (m : machine X) r :
  read_sstime (device_id desc) m = Some r ->
  0 <= r < 2 ^ 32 ->
  first_ticks_delay msg t = Some k ->
  0 <= k <= 255 ->
  exists m1 r1,
    delay_first_block desc msg st t m = Fall m1 /\
    read_sstime (device_id desc) m1 = Some r1 /\ 0 <= r1 < 2 ^ 32 /\
    same_but_sstime (device_id desc) m m1 /\ trace m1 = trace m /\
    no_os_field_get MXC_F_SPI_SSTIME_PRE r1 =
      (if cs_delay_first msg =? st_cs_delay_first st
       then no_os_field_get MXC_F_SPI_SSTIME_PRE r else k) /\
    no_os_field_get MXC_F_SPI_SSTIME_POST r1
      = no_os_field_get MXC_F_SPI_SSTIME_POST r /\
    Z.shiftr r1 16 = Z.shiftr r 16.
Proof.
  intros Hr Hrange Hk Hk255. unfold delay_first_block. rewrite Hk.
  destruct (cs_delay_first msg =? st_cs_delay_first st); simpl.
  { exists m, r. split; [reflexivity|]. split; [exact Hr|].
    split; [exact Hrange|]. split; [apply same_but_sstime_refl|]. auto. }
  destruct (Z.gtb_spec k MAX_DELAY_SCLK) as [Hgt|_];
    [unfold MAX_DELAY_SCLK in Hgt; lia|].
  destruct (write_field_defined (device_id desc) MXC_F_SPI_SSTIME_PRE k r m Hr)
    as [m1 W].
  rewrite W.
  pose proof (write_field_inv _ _ _ _ _ W) as (Hs & T & r0 & Hr0 & Hr1).
  rewrite Hr in Hr0. injection Hr0 as <-.
  destruct (update_PRE r k Hrange Hk255) as (F1 & F2 & F3 & F4).
  eauto 12.
Qed.

Lemma delay_last_block_applied desc msg st t k (m : machine X) r :
  read_sstime (device_id desc) m = Some r ->
  0 <= r < 2 ^ 32 ->
  last_ticks_delay msg t = Some k ->
  0 <= k <= 255 ->
  exists m1 r1,
    delay_last_block desc msg st t m = Fall m1 /\
    read_sstime (device_id desc) m1 = Some r1 /\ 0 <= r1 < 2 ^ 32 /\
    same_but_sstime (device_id desc) m m1 /\ trace m1 = trace m /\
    no_os_field_get MXC_F_SPI_SSTIME_POST r1 =
      (if cs_delay_last msg =? st_cs_delay_last st
       then no_os_field_get MXC_F_SPI_SSTIME_POST r else k) /\
    no_os_field_get MXC_F_SPI_SSTIME_PRE r1
      = no_os_field_get MXC_F_SPI_SSTIME_PRE r /\
    Z.shiftr r1 16 = Z.shiftr r 16.
Proof.
  intros Hr Hrange Hk Hk255. unfold delay_last_block. rewrite Hk.
  destruct (cs_delay_last msg =? st_cs_delay_last st); simpl.
  { exists m, r. split; [reflexivity|]. split; [exact Hr|].
    split; [exact Hrange|]. split; [apply same_but_sstime_refl|]. auto. }
  destruct (Z.gtb_spec k MAX_DELAY_SCLK) as [Hgt|_];
    [unfold MAX_DELAY_SCLK in Hgt; lia|].
  destruct (write_field_defined (device_id desc) MXC_F_SPI_SSTIME_POST k r m Hr)
    as [m1 W].
  rewrite W.
  pose proof (write_field_inv _ _ _ _ _ W) as (Hs & T & r0 & Hr0 & Hr1).
  rewrite Hr in Hr0. injection Hr0 as <-.
  destruct (update_POST r k Hrange Hk255) as (F1 & F2 & F3 & F4).
  eauto 12.
Qed.

(** What an accepted message leaves in the cache and in the sstime
    register of the handle's instance. *)
Lemma delay_config_applied_fields desc msg (m : machine X) st r t k1 k2 :
  heap m !! extra desc = Some st ->
  read_sstime (device_id desc) m = Some r ->
  0 <= r < 2 ^ 32 ->
  ticks_ns_of (u32 (MXC_SPI_GetPeripheralClock (device_id desc) (periph m)))
    = Some t ->
  0 < t ->
  first_ticks_delay msg t = Some k1 ->
  last_ticks_delay msg t = Some k2 ->
  (cs_delay_first msg <> st_cs_delay_first st -> k1 <= 255) ->
  (cs_delay_last msg <> st_cs_delay_last st -> k2 <= 255) ->
  exists m' r',
    _max_delay_config desc msg m = Some m' /\
    trace m' = trace m /\
    last_slave_id m' = last_slave_id m /\
    ext (periph m') = ext (periph m) /\
    heap m' !! extra desc =
      Some {| init_param := init_param st;
              st_cs_delay_first := cs_delay_first msg;
              st_cs_delay_last := cs_delay_last msg |} /\
    read_sstime (device_id desc) m' = Some r' /\
    no_os_field_get MXC_F_SPI_SSTIME_PRE r' =
      (if cs_delay_first msg =? st_cs_delay_first st
       then no_os_field_get MXC_F_SPI_SSTIME_PRE r else k1) /\
    no_os_field_get MXC_F_SPI_SSTIME_POST r' =
      (if cs_delay_last msg =? st_cs_delay_last st
       then no_os_field_get MXC_F_SPI_SSTIME_POST r else k2) /\
    Z.shiftr r' 16 = Z.shiftr r 16.
Proof.
  intros Hst Hr Hrange Ht Htpos Hk1 Hk2 H1 H2.
  unfold _max_delay_config. rewrite Hst. simpl.
  destruct (Z.eqb_spec (cs_delay_first msg) (st_cs_delay_first st)) as [E1|N1];
    destruct (Z.eqb_spec (cs_delay_last msg) (st_cs_delay_last st)) as [E2|N2];
    simpl.
  { exists m, r. rewrite Hst, E1, E2. destruct st; simpl. auto 12. }
  all: rewrite Hr; simpl; rewrite Ht; simpl; unfold delay_blocks.
  - (* only the last delay differs *)
    unfold delay_first_block.
    destruct (Z.eqb_spec (cs_delay_first msg) (st_cs_delay_first st)) as [_|N];
      [simpl | contradiction].
    pose proof (last_ticks_delay_nonneg _ _ _ Htpos Hk2) as P2.
    destruct (delay_last_block_applied desc msg st t k2 m r Hr Hrange Hk2
                ltac:(split; [exact P2 | exact (H2 N2)]))
      as (m2 & r2 & -> & Hr2 & _ & (L & Hh & He & _) & T & F1 & F2 & F3).
    destruct (Z.eqb_spec (cs_delay_last msg) (st_cs_delay_last st)) as [E|_];
      [contradiction|].
    exists (set_state (extra desc)
              {| init_param := init_param st;
                 st_cs_delay_first := cs_delay_first msg;
                 st_cs_delay_last := cs_delay_last msg |} m2), r2.
    simpl. rewrite lookup_insert_eq. auto 12.
  - (* only the first delay differs *)
    pose proof (first_ticks_delay_nonneg _ _ _ Htpos Hk1) as P1.
    destruct (delay_first_block_applied desc msg st t k1 m r Hr Hrange Hk1
                ltac:(split; [exact P1 | exact (H1 N1)]))
      as (m1 & r1 & -> & Hr1 & _ & (L & Hh & He & _) & T & F1 & F2 & F3).
    destruct (Z.eqb_spec (cs_delay_first msg) (st_cs_delay_first st)) as [E|_];
      [contradiction|].
    unfold delay_last_block.
    destruct (Z.eqb_spec (cs_delay_last msg) (st_cs_delay_last st)) as [_|N];
      [simpl | contradiction].
    exists (set_state (extra desc)
              {| init_param := init_param st;
                 st_cs_delay_first := cs_delay_first msg;
                 st_cs_delay_last := cs_delay_last msg |} m1), r1.
    simpl. rewrite lookup_insert_eq. auto 12.
  - (* both differ *)
    pose proof (first_ticks_delay_nonneg _ _ _ Htpos Hk1) as P1.
    pose proof (last_ticks_delay_nonneg _ _ _ Htpos Hk2) as P2.
    destruct (delay_first_block_applied desc msg st t k1 m r Hr Hrange Hk1
                ltac:(split; [exact P1 | exact (H1 N1)]))
      as (m1 & r1 & -> & Hr1 & Hrange1 & (L & Hh & He & _) & T & F1 & F2 & F3).
    destruct (delay_last_block_applied desc msg st t k2 m1 r1 Hr1 Hrange1 Hk2
                ltac:(split; [exact P2 | exact (H2 N2)]))
      as (m2 & r2 & -> & Hr2 & _ & (L' & Hh' & He' & _) & T' & G1 & G2 & G3).
    destruct (Z.eqb_spec (cs_delay_first msg) (st_cs_delay_first st)) as [E|_];
      [contradiction|].
    destruct (Z.eqb_spec (cs_delay_last msg) (st_cs_delay_last st)) as [E|_];
      [contradiction|].
    exists (set_state (extra desc)
              {| init_param := init_param st;
                 st_cs_delay_first := cs_delay_first msg;
                 st_cs_delay_last := cs_delay_last msg |} m2), r2.
    simpl. rewrite lookup_insert_eq.
    split; [reflexivity|]. split; [congruence|]. split; [congruence|].
    split; [congruence|]. split; [reflexivity|]. split; [exact Hr2|].
    split; [congruence|]. split; [exact G1|]. congruence.
Qed.

(** X7.  A message that [_max_delay_config] has accepted without a warning
    is a no-op the second time: applied again to the state it left, it
    returns that state unchanged. *)
Theorem X7_delay_config_idempotent desc msg (m m' : machine X) :
  _max_delay_config desc msg m = Some m' ->
  trace m' = trace m ->
  _max_delay_config desc msg m' = Some m'.
Proof.
  intros D T. revert D. unfold _max_delay_config at 1.
  destruct (heap m !! extra desc) as [st|] eqn:Hst; simpl; [|discriminate].
  destruct (_ && _) eqn:Hsame.
  { intros [= <-]. unfold _max_delay_config. rewrite Hst. simpl.
    rewrite Hsame. reflexivity. }
  destruct (read_sstime (device_id desc) m) as [cache|]; simpl; [|discriminate].
  destruct (ticks_ns_of _) as [ticks_ns|]; simpl; [|discriminate].
  pose proof (delay_blocks_inv desc msg st ticks_ns m) as Hb.
  destruct (delay_blocks desc msg st ticks_ns m) as [m1|m1|]; [| |discriminate].
  - intros [= <-]. unfold _max_delay_config. simpl.
    rewrite lookup_insert_eq. simpl. rewrite !Z.eqb_refl. reflexivity.
  - destruct Hb as [_ [text T1]]. intros [= <-]. simpl in T.
    rewrite T1 in T. apply (f_equal length) in T.
    rewrite length_app in T. simpl in T. lia.
Qed.

End Delay_applied.

(** ** Bounds of the tick conversion *)

(** X8.  For a peripheral clock from 1 Hz to 2 GHz the tick period of line
    90 is defined, is at least 1 ns, and is the number of nanoseconds
    nearest to the true period: it is off by at most half a nanosecond,
    that is, [ticks_ns * clk_rate] is within [clk_rate / 2] of 10^9. *)
Theorem X8_tick_period_rounded (clk_rate : Z) :
  1 <= clk_rate <= 2000000000 ->
  exists t, ticks_ns_of clk_rate = Some t /\ 1 <= t /\
            2 * Z.abs (t * clk_rate - NANO) <= clk_rate.
Proof.
  intros Hc. destruct (ticks_ns_of_defined clk_rate Hc) as (t & Ht & Hpos).
  exists t. split; [exact Ht|]. split; [exact Hpos|].
  unfold ticks_ns_of, NO_OS_DIV_ROUND_CLOSEST, udiv, NANO in *.
  destruct (Z.eqb_spec clk_rate 0); [lia|]. injection Ht as <-.
  assert (Hh : 0 <= clk_rate / 2 <= 1000000000).
  { split; [apply Z.div_pos; lia|]. apply Z.div_le_upper_bound; lia. }
  unfold u32. rewrite Z.mod_small by lia.
  pose proof (Z.div_mod clk_rate 2 ltac:(lia)) as D2.
  pose proof (Z.mod_pos_bound clk_rate 2 ltac:(lia)) as B2.
  pose proof (Z.div_mod (1000000000 + clk_rate / 2) clk_rate ltac:(lia)) as D.
  pose proof (Z.mod_pos_bound (1000000000 + clk_rate / 2) clk_rate ltac:(lia))
    as B.
  clear Hpos.
  set (q := (1000000000 + clk_rate / 2) / clk_rate) in *.
  set (rm := (1000000000 + clk_rate / 2) mod clk_rate) in *.
  set (h := clk_rate / 2) in *. set (s := clk_rate mod 2) in *.
  rewrite (Z.mul_comm q clk_rate).
  set (a := clk_rate * q) in *.
  clearbody a rm h s. lia.
Qed.

(** X9.  For a first delay from 1 us to 4294967 us, where its product with
    1000 does not wrap, the tick count is the quotient rounded down: the
    programmed time, ticks times tick period, never exceeds the requested
    nanoseconds and falls short of them by less than one tick period.  With
    a tick period of at most 1000 ns the count is at least 1. *)
Theorem X9_first_ticks_rounded_down (msg : no_os_spi_msg) (t : Z) :
  0 < t ->
  1 <= cs_delay_first msg <= 4294967 ->
  exists k, first_ticks_delay msg t = Some k /\
            k * t <= cs_delay_first msg * 1000 < (k + 1) * t /\
            (t <= 1000 -> 1 <= k).
Proof.
  intros Ht Hd. rewrite first_ticks_delay_nonzero by lia. unfold udiv.
  destruct (Z.eqb_spec t 0); [lia|].
  rewrite Z.mod_small by lia. eexists. split; [reflexivity|].
  pose proof (Z.div_mod (cs_delay_first msg * 1000) t ltac:(lia)) as D.
  pose proof (Z.mod_pos_bound (cs_delay_first msg * 1000) t ltac:(lia)) as B.
  set (k := cs_delay_first msg * 1000 / t) in *.
  split; [nia|]. intros Ht1. apply Z.div_le_lower_bound; lia.
Qed.


(** X11.  At a fixed tick period the tick count of the first delay does not
    decrease as the delay grows from 1 us up to 4294967 us; with a tick
    period of at most 1000 ns this holds from 0 us on. *)
Theorem X11_first_ticks_monotone (m1 m2 : no_os_spi_msg) (t t1 t2 : Z) :
  0 < t ->
  0 <= cs_delay_first m1 <= cs_delay_first m2 ->
  cs_delay_first m2 <= 4294967 ->
  1 <= cs_delay_first m1 \/ t <= 1000 ->
  first_ticks_delay m1 t = Some t1 ->
  first_ticks_delay m2 t = Some t2 ->
  t1 <= t2.
Proof.
  intros Ht Hd Hmax [H1 | H1000] F1 F2.
  - eapply first_ticks_delay_monotone; try eassumption; lia.
  - eapply (first_ticks_delay_monotone_from_zero m1 m2 t); try eassumption; lia.
Qed.

(** ** What a transfer leaves alone *)

Section Transfer_frame.

Context {X : Type} `{!HAL X}.

Lemma max_delay_config_heap desc msg (m m' : machine X) :
  _max_delay_config desc msg m = Some m' ->
  forall a, a <> extra desc -> heap m' !! a = heap m !! a.
Proof.
  unfold _max_delay_config.
  destruct (heap m !! extra desc) as [st|]; simpl; [|discriminate].
  destruct (_ && _); [intros [= <-]; reflexivity|].
  destruct (read_sstime (device_id desc) m) as [cache|]; simpl; [|discriminate].
  destruct (ticks_ns_of _) as [ticks_ns|]; simpl; [|discriminate].
  pose proof (delay_blocks_inv desc msg st ticks_ns m) as Hb.
  destruct (delay_blocks desc msg st ticks_ns m) as [m1|m1|]; [| |discriminate].
  - destruct Hb as [(_ & Hh & _) _]. intros [= <-] a Ha. simpl.
    rewrite lookup_insert_ne by congruence. now rewrite Hh.
  - destruct Hb as [(_ & Hh & _) _]. intros [= <-] a Ha. simpl.
    now rewrite Hh.
Qed.

Lemma transfer_loop_heap desc msgs : forall (m m' : machine X) (ret : Z),
  transfer_loop desc msgs m = Some (ret, m') ->
  forall a, a <> extra desc -> heap m' !! a = heap m !! a.
Proof.
  induction msgs as [|msg rest IH]; intros m m' ret; simpl.
  { intros [= <- <-]. reflexivity. }
  destruct (_max_delay_config desc msg m) as [m1|] eqn:D; simpl; [|discriminate].
  pose proof (max_delay_config_heap _ _ _ _ D) as H1.
  destruct (call _ _ m1) as [r m2] eqn:E.
  apply call_inv in E as (_ & H2 & _ & _).
  destruct (r =? E_BAD_PARAM);
    [intros [= <- <-] a Ha; rewrite H2; auto|].
  destruct (r =? E_BAD_STATE);
    [intros [= <- <-] a Ha; rewrite H2; auto|].
  intros Hl a Ha. rewrite (IH _ _ _ Hl a Ha). simpl. rewrite H2. auto.
Qed.

(** X12.  A call of [max_spi_transfer] leaves the table entries of the
    other buses and the private states of the other handles as they were;
    the table keeps its length, and the entry of the handle's bus either
    keeps its value or becomes the chip select of the handle. *)
Theorem X12_transfer_frame desc msgs (m m' : machine X) ret :
  max_spi_transfer (Some desc) (Some msgs) m = Some (ret, m') ->
  length (last_slave_id m') = length (last_slave_id m) /\
  (forall i : nat, i <> Z.to_nat (device_id desc) ->
     last_slave_id m' !! i = last_slave_id m !! i) /\
  (last_slave_id m' !! Z.to_nat (device_id desc)
     = last_slave_id m !! Z.to_nat (device_id desc) \/
   last_slave_id m' !! Z.to_nat (device_id desc) = Some (chip_select desc)) /\
  (forall a, a <> extra desc -> heap m' !! a = heap m !! a).
Proof.
  unfold max_spi_transfer.
  destruct (last_slave_id m !! Z.to_nat (device_id desc)) as [last|] eqn:H0;
    simpl; [|discriminate].
  destruct (negb (chip_select desc =? last)).
  - destruct (_max_spi_config desc m) as [[r m1]|] eqn:Hc; simpl;
      [|discriminate].
    apply max_spi_config_inv in Hc as (L1 & Hh1 & _).
    destruct (negb (r =? 0)).
    + intros [= <- <-]. rewrite L1, Hh1, H0. auto.
    + intros Hl. pose proof (transfer_loop_heap _ _ _ _ _ Hl) as Hh.
      apply transfer_loop_inv in Hl as (L & _ & _). simpl in L, Hh.
      rewrite L, L1, length_insert. split; [reflexivity|].
      split; [intros i Hi; apply list_lookup_insert_ne; congruence|].
      split.
      * right. apply list_lookup_insert_eq.
        eapply lookup_lt_Some; eassumption.
      * intros a Ha. rewrite (Hh a Ha), Hh1. reflexivity.
  - intros Hl. pose proof (transfer_loop_heap _ _ _ _ _ Hl) as Hh.
    apply transfer_loop_inv in Hl as (L & _ & _). rewrite L. auto.
Qed.

Lemma same_but_sstime_others (dev : Z) (m m' : machine X) :
  same_but_sstime dev m m' ->
  length (sstime (periph m')) = length (sstime (periph m)) /\
  forall i : nat, i <> Z.to_nat dev ->
    sstime (periph m') !! i = sstime (periph m) !! i.
Proof.
  intros (_ & _ & _ & [-> | [v ->]]); [auto|].
  split; [apply length_insert|].
  intros i Hi. apply list_lookup_insert_ne. congruence.
Qed.

(** The delay applier leaves the sstime registers of the other instances
    and whatever else the peripheral holds. *)
Lemma max_delay_config_periph desc msg (m m' : machine X) :
  _max_delay_config desc msg m = Some m' ->
  ext (periph m') = ext (periph m) /\
  length (sstime (periph m')) = length (sstime (periph m)) /\
  forall i : nat, i <> Z.to_nat (device_id desc) ->
    sstime (periph m') !! i = sstime (periph m) !! i.
Proof.
  unfold _max_delay_config.
  destruct (heap m !! extra desc) as [st|]; simpl; [|discriminate].
  destruct (_ && _); [intros [= <-]; auto|].
  destruct (read_sstime (device_id desc) m) as [cache|]; simpl; [|discriminate].
  destruct (ticks_ns_of _) as [ticks_ns|]; simpl; [|discriminate].
  pose proof (delay_blocks_inv desc msg st ticks_ns m) as Hb.
  destruct (delay_blocks desc msg st ticks_ns m) as [m1|m1|]; [| |discriminate].
  - destruct Hb as [Hs _]. intros [= <-]. simpl.
    destruct (same_but_sstime_others _ _ _ Hs) as [Hl Ho].
    destruct Hs as (_ & _ & He & _). auto.
  - destruct Hb as [Hs _]. intros [= <-]. simpl.
    destruct (same_but_sstime_others _ _ _ Hs) as [Hl Ho].
    destruct Hs as (_ & _ & He & _).
    split; [exact He|]. split; [rewrite length_insert; exact Hl|].
    intros i Hi. rewrite list_lookup_insert_ne by congruence. auto.
Qed.

(** X6.  When neither computed tick count is above 255, [_max_delay_config]
    returns without a warning and leaves: in the cache, the two delays of
    the message; in the PRE field of sstime, the tick count of the first
    delay if that delay differs from the cached one, the former content
    otherwise; the same for POST and the last delay; the upper 16 bits of
    sstime as they were.  Everything else is as it was: the table, the
    private states of the other handles, the sstime registers of the other
    instances and the rest of the peripheral. *)
Theorem X6_delay_config_applied desc msg (m : machine X) st r t k1 k2 :
  heap m !! extra desc = Some st ->
  read_sstime (device_id desc) m = Some r ->
  0 <= r < 2 ^ 32 ->
  ticks_ns_of (u32 (MXC_SPI_GetPeripheralClock (device_id desc) (periph m)))
    = Some t ->
  0 < t ->
  first_ticks_delay msg t = Some k1 ->
  last_ticks_delay msg t = Some k2 ->
  (cs_delay_first msg <> st_cs_delay_first st -> k1 <= 255) ->
  (cs_delay_last msg <> st_cs_delay_last st -> k2 <= 255) ->
  exists m' r',
    _max_delay_config desc msg m = Some m' /\
    trace m' = trace m /\
    last_slave_id m' = last_slave_id m /\
    ext (periph m') = ext (periph m) /\
    heap m' !! extra desc =
      Some {| init_param := init_param st;
              st_cs_delay_first := cs_delay_first msg;
              st_cs_delay_last := cs_delay_last msg |} /\
    read_sstime (device_id desc) m' = Some r' /\
    no_os_field_get MXC_F_SPI_SSTIME_PRE r' =
      (if cs_delay_first msg =? st_cs_delay_first st
       then no_os_field_get MXC_F_SPI_SSTIME_PRE r else k1) /\
    no_os_field_get MXC_F_SPI_SSTIME_POST r' =
      (if cs_delay_last msg =? st_cs_delay_last st
       then no_os_field_get MXC_F_SPI_SSTIME_POST r else k2) /\
    Z.shiftr r' 16 = Z.shiftr r 16 /\
    length (sstime (periph m')) = length (sstime (periph m)) /\
    (forall i : nat, i <> Z.to_nat (device_id desc) ->
       sstime (periph m') !! i = sstime (periph m) !! i) /\
    (forall a, a <> extra desc -> heap m' !! a = heap m !! a).
Proof.
  intros Hst Hr Hrange Ht Htpos Hk1 Hk2 H1 H2.
  destruct (delay_config_applied_fields desc msg m st r t k1 k2
              Hst Hr Hrange Ht Htpos Hk1 Hk2 H1 H2)
    as (m' & r' & D & T & L & He & Hc & Hr' & F1 & F2 & F3).
  pose proof (max_delay_config_periph _ _ _ _ D) as (_ & Hlen & Hothers).
  pose proof (max_delay_config_heap _ _ _ _ D) as Hheap.
  exists m', r'.
  split; [exact D|]. split; [exact T|]. split; [exact L|].
  split; [exact He|]. split; [exact Hc|]. split; [exact Hr'|].
  split; [exact F1|]. split; [exact F2|]. split; [exact F3|].
  split; [exact Hlen|]. split; [exact Hothers|]. exact Hheap.
Qed.

Lemma max_delay_config_zero_delays desc msg (m m' : machine X) st :
  _max_delay_config desc msg m = Some m' ->
  cs_delay_first msg = 0 -> cs_delay_last msg = 0 ->
  heap m !! extra desc = Some st ->
  heap m' !! extra desc =
    Some {| init_param := init_param st;
            st_cs_delay_first := 0; st_cs_delay_last := 0 |}.
Proof.
  intros D F L Hst. revert D. unfold _max_delay_config. rewrite Hst. simpl.
  rewrite F, L.
  destruct (Z.eqb_spec 0 (st_cs_delay_first st)) as [E1|_];
    destruct (Z.eqb_spec 0 (st_cs_delay_last st)) as [E2|_]; simpl.
  { intros [= <-]. rewrite Hst. destruct st; simpl in *. now subst. }
  all: destruct (read_sstime (device_id desc) m) as [cache|]; simpl;
    [|discriminate];
    destruct (ticks_ns_of _) as [ticks_ns|]; simpl; [|discriminate];
    destruct (delay_blocks desc msg st ticks_ns m) as [m1|m1|] eqn:Hb;
    [| |discriminate];
    [ intros [= <-]; simpl; apply lookup_insert_eq
    | apply delay_blocks_error_out_of_range in Hb;
      unfold delay_out_of_range, first_ticks_delay, last_ticks_delay in Hb;
      rewrite F in Hb; simpl in Hb;
      rewrite !andb_false_r in Hb; discriminate Hb ].
Qed.

(** X13.  [max_spi_write_and_read] carries chip-select delays of zero in
    its message: a call that returns 0 leaves zero for both cached delays
    of the handle, whatever an earlier transfer had cached. *)
Theorem X13_write_and_read_resets_delays
    desc (data n : Z) (m m' : machine X) st :
  max_spi_write_and_read (Some desc) data n m = Some (0, m') ->
  heap m !! extra desc = Some st ->
  heap m' !! extra desc =
    Some {| init_param := init_param st;
            st_cs_delay_first := 0; st_cs_delay_last := 0 |}.
Proof.
  unfold max_spi_write_and_read, max_spi_transfer. intros Ht Hst. revert Ht.
  destruct (last_slave_id m !! Z.to_nat (device_id desc)) as [last|]; simpl;
    [|discriminate].
  assert (Hloop : forall m0 : machine X,
            heap m0 = heap m ->
            transfer_loop desc
              [{| tx_buff := data; rx_buff := data; bytes_number := n;
                  cs_change := 1; cs_change_delay := 0;
                  cs_delay_first := 0; cs_delay_last := 0 |}] m0
              = Some (0, m') ->
            heap m' !! extra desc =
              Some {| init_param := init_param st;
                      st_cs_delay_first := 0; st_cs_delay_last := 0 |}).
  { intros m0 Hh. simpl.
    destruct (_max_delay_config desc _ m0) as [m1|] eqn:D; simpl;
      [|discriminate].
    rewrite <- Hh in Hst.
    pose proof (max_delay_config_zero_delays _ _ _ _ _ D eq_refl eq_refl Hst)
      as H1.
    destruct (call _ _ m1) as [r m2] eqn:E.
    apply call_inv in E as (_ & H2 & _ & _).
    destruct (r =? E_BAD_PARAM); [discriminate|].
    destruct (r =? E_BAD_STATE); [discriminate|].
    intros [= <-]. simpl. now rewrite H2. }
  destruct (negb (chip_select desc =? last)); [|apply Hloop; reflexivity].
  destruct (_max_spi_config desc m) as [[r m1]|] eqn:Hc; simpl; [|discriminate].
  apply max_spi_config_inv in Hc as (_ & Hh1 & _).
  destruct (Z.eqb_spec r 0) as [->|Hr]; simpl.
  - apply Hloop. exact Hh1.
  - intros [= E]. congruence.
Qed.

End Transfer_frame.

(** ** Initialisation and removal *)

Section Lifecycle_properties.

Context {X : Type} `{!HAL X}.

Lemma free_state_fresh (b : Z) (st : max_spi_state) (m m1 : machine X) :
  b <> 0 ->
  heap (m : machine X) !! b = None ->
  heap m1 = <[b := st]> (heap m) ->
  exists m2, free_state b m1 = Some m2 /\ heap m2 = heap m /\
             periph m2 = periph m1 /\ last_slave_id m2 = last_slave_id m1 /\
             trace m2 = trace m1.
Proof.
  intros Hb Hfresh Hh. unfold free_state.
  destruct (Z.eqb_spec b 0); [contradiction|].
  rewrite Hh, lookup_insert_eq. simpl. eexists. split; [reflexivity|].
  simpl. rewrite delete_insert_id by assumption. auto.
Qed.

(** The runs of [max_spi_init] once both blocks are allocated. *)
Lemma max_spi_init_allocated p eparam a b (s s' : system X) ret out :
  no_os_spi_init_param.extra p = Some eparam ->
  descs s !! a = None ->
  b <> 0 -> heap (mach s) !! b = None ->
  max_spi_init (Some p) (Some a) (Some b) s = Some (ret, out, s') ->
  let d := descriptor_of p b in
  let m0 := set_state b {| init_param := eparam; st_cs_delay_first := 0;
                           st_cs_delay_last := 0 |} (mach s) in
  (Z.of_nat MXC_SPI_INSTANCES <= no_os_spi_init_param.device_id p /\
   ret = - EINVAL /\ out = None /\ s' = s)
  \/ (no_os_spi_init_param.device_id p < Z.of_nat MXC_SPI_INSTANCES /\
      exists r m1,
        _max_spi_config d m0 = Some (r, m1) /\
        ((r = 0 /\ ret = 0 /\ out = Some a /\
          s' = System m1 (<[a := d]> (descs s)))
         \/ (r <> 0 /\ ret = r /\ out = None /\
             descs s' = descs s /\ heap (mach s') = heap (mach s) /\
             last_slave_id (mach s') = last_slave_id (mach s) /\
             trace (mach s') = trace m1 ++ [EvShutdown (device_id d)]))).
Proof.
  intros He Ha Hb Hfresh Hi d m0. revert Hi.
  unfold max_spi_init. rewrite He.
  cbn [mach descs]. rewrite insert_insert_eq.
  fold (descriptor_of p b). fold d. fold m0.
  replace (device_id d) with (no_os_spi_init_param.device_id p) by reflexivity.
  destruct (Z.leb_spec (Z.of_nat MXC_SPI_INSTANCES)
              (no_os_spi_init_param.device_id p)) as [Hge|Hlt].
  - destruct (free_state_fresh b _ (mach s) m0 Hb Hfresh eq_refl)
      as (m2 & -> & Hh & Hp & Hl & Ht).
    simpl. rewrite delete_insert_id by assumption.
    intros [= <- <- <-]. left. split; [exact Hge|].
    split; [reflexivity|]. split; [reflexivity|].
    destruct s as [ms ds]. simpl in *. f_equal.
    destruct m2 as [p2 l2 h2 t2], ms as [p0 l0 h0 t0]. simpl in *.
    congruence.
  - intros Hi. right. split; [exact Hlt|]. revert Hi.
    destruct (_max_spi_config d m0) as [[r m1]|] eqn:Hc; simpl;
      [|discriminate].
    intros Hi. exists r, m1. split; [reflexivity|]. revert Hi.
    pose proof (max_spi_config_inv _ _ _ _ Hc) as (L1 & Hh1 & _).
    destruct (Z.eqb_spec r 0) as [->|Hr]; simpl.
    + intros [= <- <- <-]. left. auto.
    + destruct (call _ _ m1) as [r2 m2] eqn:E.
      apply call_inv in E as (L2 & Hh2 & T2 & _).
      destruct (free_state_fresh b _ (mach s) m2 Hb Hfresh
                  ltac:(rewrite Hh2, Hh1; reflexivity))
        as (m3 & -> & Hh & Hp & Hl & Ht).
      simpl. rewrite delete_insert_id by assumption.
      intros [= <- <- <-]. right. simpl.
      split; [exact Hr|]. split; [reflexivity|]. split; [reflexivity|].
      split; [reflexivity|]. split; [exact Hh|].
      split; [rewrite Hl, L2, L1; reflexivity|].
      rewrite Ht. exact T2.
Qed.

Lemma max_spi_config_result desc (m m1 : machine X) ret :
  _max_spi_config desc m = Some (ret, m1) -> ret = 0 \/ ret = - EINVAL.
Proof.
  intros Hc. apply max_spi_config_cases in Hc as (st & _ & Hcases).
  destruct Hcases as [(E & _) | [(E & _) | (E & _)]]; auto.
Qed.

(** X14.  A call of [max_spi_init] that fails, with whatever blocks
    no_os_calloc handed out being new and not NULL, returns -EINVAL or
    -ENOMEM, publishes no descriptor and leaves no block behind: the
    descriptors, the private states and the table are as before the
    call. *)
Theorem X14_init_failure_frees param cd cs (s s' : system X) ret out :
  max_spi_init param cd cs s = Some (ret, out, s') ->
  ret <> 0 ->
  (forall a, cd = Some a -> descs s !! a = None) ->
  (forall b, cs = Some b -> b <> 0 /\ heap (mach s) !! b = None) ->
  out = None /\ descs s' = descs s /\ heap (mach s') = heap (mach s) /\
  last_slave_id (mach s') = last_slave_id (mach s) /\
  (ret = - EINVAL \/ ret = - ENOMEM).
Proof.
  intros Hi Hr Hcd Hcs.
  destruct param as [p|]; [|injection Hi as <- <- <-; auto 10].
  destruct (no_os_spi_init_param.extra p) as [eparam|] eqn:He;
    [|unfold max_spi_init in Hi; rewrite He in Hi;
      injection Hi as <- <- <-; auto 10].
  destruct cd as [a|];
    [|unfold max_spi_init in Hi; rewrite He in Hi;
      injection Hi as <- <- <-; auto 10].
  specialize (Hcd a eq_refl).
  destruct cs as [b|].
  - destruct (Hcs b eq_refl) as [Hb Hfresh].
    destruct (max_spi_init_allocated p eparam a b s s' ret out He Hcd Hb
                Hfresh Hi)
      as [(_ & -> & -> & ->) | (_ & r & m1 & Hc & [(_ & E & _) | H1])];
      [auto 10 | contradiction |].
    destruct H1 as (Hr0 & -> & -> & Hd & Hh & Hl & _).
    destruct (max_spi_config_result _ _ _ _ Hc) as [E | E];
      [contradiction|]. auto 10.
  - unfold max_spi_init in Hi. rewrite He in Hi. cbn [mach descs] in Hi.
    rewrite delete_insert_id in Hi by assumption.
    injection Hi as <- <- <-. auto 10.
Qed.

(** X15.  A call of [max_spi_init] that returns 0 has got both blocks,
    publishes the address of the descriptor, has filled the descriptor with
    the bus index, speed, chip select, mode and bit order of the parameter
    and with the address of the private state, has set the cached delays of
    the private state to zero, has a bus index below [MXC_SPI_INSTANCES],
    has run the bus configuration step once, with result 0, and has left
    the table as it was. *)
Theorem X15_init_success p cd cs (s s' : system X) out :
  max_spi_init (Some p) cd cs s = Some (0, out, s') ->
  (forall a, cd = Some a -> descs s !! a = None) ->
  (forall b, cs = Some b -> b <> 0 /\ heap (mach s) !! b = None) ->
  exists eparam a b,
    no_os_spi_init_param.extra p = Some eparam /\
    cd = Some a /\ cs = Some b /\ out = Some a /\
    descs s' = <[a := descriptor_of p b]> (descs s) /\
    heap (mach s') =
      <[b := {| init_param := eparam; st_cs_delay_first := 0;
                st_cs_delay_last := 0 |}]> (heap (mach s)) /\
    no_os_spi_init_param.device_id p < Z.of_nat MXC_SPI_INSTANCES /\
    last_slave_id (mach s') = last_slave_id (mach s) /\
    config_calls (trace (mach s')) = S (config_calls (trace (mach s))).
Proof.
  intros Hi Hcd Hcs.
  destruct (no_os_spi_init_param.extra p) as [eparam|] eqn:He;
    [|unfold max_spi_init in Hi; rewrite He in Hi; discriminate Hi].
  destruct cd as [a|];
    [|unfold max_spi_init in Hi; rewrite He in Hi; discriminate Hi].
  destruct cs as [b|];
    [|unfold max_spi_init in Hi; rewrite He in Hi; discriminate Hi].
  destruct (Hcs b eq_refl) as [Hb Hfresh].
  destruct (max_spi_init_allocated p eparam a b s s' 0 out He
              (Hcd a eq_refl) Hb Hfresh Hi)
    as [(_ & E & _) | (Hlt & r & m1 & Hc & [(_ & _ & -> & ->) | (Hr & E & _)])];
    [discriminate E | | congruence].
  pose proof (max_spi_config_inv _ _ _ _ Hc)
    as (L1 & Hh1 & e & tl & Hinit & T1 & C1 & _).
  exists eparam, a, b. simpl. rewrite Hh1, L1, T1. simpl.
  repeat (split; [reflexivity || assumption|]).
  rewrite config_calls_app. change (e :: tl) with ([e] ++ tl).
  rewrite config_calls_app, C1. unfold config_calls at 2. simpl.
  rewrite Hinit. simpl. lia.
Qed.

End Lifecycle_properties.

Section Lifecycle_composition.

Context {X : Type} `{!HAL X}.

(** X16.  Initialisation followed by removal gives everything back: after a
    [max_spi_init] that returned 0, [max_spi_remove] on the published
    descriptor returns 0, shuts the instance down as its only call, and
    leaves the descriptors, the private states and the table as they were
    before the initialisation. *)
Theorem X16_init_remove_round_trip p cd cs (s s1 : system X) a :
  max_spi_init (Some p) cd cs s = Some (0, Some a, s1) ->
  (forall a', cd = Some a' -> descs s !! a' = None) ->
  (forall b, cs = Some b -> b <> 0 /\ heap (mach s) !! b = None) ->
  exists s2,
    max_spi_remove (Some a) s1 = Some (0, s2) /\
    descs s2 = descs s /\
    heap (mach s2) = heap (mach s) /\
    last_slave_id (mach s2) = last_slave_id (mach s) /\
    trace (mach s2) =
      trace (mach s1) ++ [EvShutdown (no_os_spi_init_param.device_id p)].
Proof.
  intros Hi Hcd Hcs.
  destruct (no_os_spi_init_param.extra p) as [eparam|] eqn:He;
    [|unfold max_spi_init in Hi; rewrite He in Hi; discriminate Hi].
  destruct cd as [a'|];
    [|unfold max_spi_init in Hi; rewrite He in Hi; discriminate Hi].
  destruct cs as [b|];
    [|unfold max_spi_init in Hi; rewrite He in Hi; discriminate Hi].
  destruct (Hcs b eq_refl) as [Hb Hfresh]. specialize (Hcd a' eq_refl).
  destruct (max_spi_init_allocated p eparam a' b s s1 0 (Some a) He
              Hcd Hb Hfresh Hi)
    as [(_ & E & _) | (Hlt & r & m1 & Hc & [(_ & _ & Ha & ->) | (Hr & E & _)])];
    [discriminate E | | congruence].
  injection Ha as <-.
  pose proof (max_spi_config_inv _ _ _ _ Hc) as (L1 & Hh1 & _).
  unfold max_spi_remove. cbn [descs mach]. rewrite lookup_insert_eq. simpl.
  destruct (call _ _ m1) as [r2 m2] eqn:E.
  apply call_inv in E as (L2 & Hh2 & T2 & _).
  destruct (free_state_fresh b _ (mach s) m2 Hb Hfresh
              ltac:(rewrite Hh2, Hh1; reflexivity))
    as (m3 & -> & Hh & _ & Hl & Ht).
  simpl. eexists. split; [reflexivity|]. simpl.
  rewrite delete_insert_id by assumption.
  split; [reflexivity|]. split; [exact Hh|].
  split; [rewrite Hl, L2, L1; reflexivity|]. rewrite Ht. exact T2.
Qed.

(** X17.  [max_spi_init] checks the bus index before it touches the
    hardware: for an index of [MXC_SPI_INSTANCES] or more the call fails,
    publishes no descriptor and has called nothing of the vendor
    library. *)
Theorem X17_init_instance_bound p cd cs (s s' : system X) ret out :
  max_spi_init (Some p) cd cs s = Some (ret, out, s') ->
  Z.of_nat MXC_SPI_INSTANCES <= no_os_spi_init_param.device_id p ->
  ret <> 0 /\ out = None /\ trace (mach s') = trace (mach s).
Proof.
  unfold max_spi_init. intros Hi Hge. revert Hi.
  destruct (no_os_spi_init_param.extra p) as [eparam|];
    [|intros [= <- <- <-]; split; [discriminate | auto]].
  destruct cd as [a|]; [|intros [= <- <- <-]; split; [discriminate | auto]].
  destruct cs as [b|]; [|intros [= <- <- <-]; split; [discriminate | auto]].
  cbn [mach descs device_id].
  destruct (Z.leb_spec (Z.of_nat MXC_SPI_INSTANCES)
              (no_os_spi_init_param.device_id p)) as [_|Hlt]; [|lia].
  unfold free_state. destruct (b =? 0); simpl.
  - intros [= <- <- <-]. split; [discriminate | auto].
  - rewrite lookup_insert_eq. simpl.
    intros [= <- <- <-]. split; [discriminate | auto].
Qed.

(** X18.  A [max_spi_init] that fails after having called the vendor
    library leaves the instance shut down: its last call is
    MXC_SPI_Shutdown, also when the failure is a mode outside the
    enumeration, which the bus configuration step alone returns from
    without a shutdown.  When the mode is of the enumeration, the failure
    is a refused call and the instance is shut down twice in a row, by the
    step and by [max_spi_init]. *)
Theorem X18_init_failure_shuts_down p cd cs (s s' : system X) ret out :
  max_spi_init (Some p) cd cs s = Some (ret, out, s') ->
  ret <> 0 ->
  trace (mach s') <> trace (mach s) ->
  (forall a, cd = Some a -> descs s !! a = None) ->
  (forall b, cs = Some b -> b <> 0 /\ heap (mach s) !! b = None) ->
  let shutdown := EvShutdown (no_os_spi_init_param.device_id p) in
  exists pre,
    trace (mach s') = trace (mach s) ++ pre ++ [shutdown] /\
    (hw_mode (no_os_spi_init_param.mode p) <> None ->
     exists pre', pre = pre' ++ [shutdown]).
Proof.
  intros Hi Hr Htr Hcd Hcs shutdown.
  destruct (no_os_spi_init_param.extra p) as [eparam|] eqn:He;
    [|unfold max_spi_init in Hi; rewrite He in Hi;
      injection Hi as <- <- <-; contradiction].
  destruct cd as [a|];
    [|unfold max_spi_init in Hi; rewrite He in Hi;
      injection Hi as <- <- <-; contradiction].
  destruct cs as [b|];
    [|unfold max_spi_init in Hi; rewrite He in Hi;
      injection Hi as <- <- <-; contradiction].
  destruct (Hcs b eq_refl) as [Hb Hfresh].
  destruct (max_spi_init_allocated p eparam a b s s' ret out He
              (Hcd a eq_refl) Hb Hfresh Hi)
    as [(_ & _ & _ & ->) | (_ & r & m1 & Hc & [(_ & E & _) | H1])];
    [contradiction | contradiction |].
  destruct H1 as (Hr0 & _ & _ & _ & _ & _ & T).
  apply max_spi_config_cases in Hc as (st & _ & Hcases).
  simpl in T, Hcases. fold shutdown in T.
  destruct Hcases as [(E0 & _) | [(_ & Hm & T1) | (_ & pre & T1 & _)]];
    [contradiction | |].
  - exists [init_event (descriptor_of p b) st].
    rewrite T, T1, <- app_assoc. split; [reflexivity|].
    intros Hne. contradiction.
  - exists (init_event (descriptor_of p b) st :: pre ++ [shutdown]).
    rewrite T, T1, <- !app_assoc. simpl. rewrite <- !app_assoc.
    split; [reflexivity|]. intros _.
    exists (init_event (descriptor_of p b) st :: pre). reflexivity.
Qed.

(** X19.  [max_spi_init] does not record in the table the chip select it
    has configured the bus for.  After an initialisation that returned 0,
    the bus is as the step configured it for the new handle, its four
    calls being the last of the trace; a transfer through a handle of that
    bus whose chip select equals the unchanged table entry goes straight
    to the message loop, without configuring the bus, whether or not that
    chip select is the one of the new handle. *)
Theorem X19_init_keeps_table p cd cs (s s1 : system X) out other msgs :
  max_spi_init (Some p) cd cs s = Some (0, out, s1) ->
  (forall a, cd = Some a -> descs s !! a = None) ->
  (forall b, cs = Some b -> b <> 0 /\ heap (mach s) !! b = None) ->
  last_slave_id (mach s) !! Z.to_nat (device_id other)
    = Some (chip_select other) ->
  last_slave_id (mach s1) = last_slave_id (mach s) /\
  (exists b st md,
     cs = Some b /\
     trace (mach s1) = trace (mach s) ++
       [init_event (descriptor_of p b) st;
        EvSetMode (no_os_spi_init_param.device_id p) md;
        EvSetWidth (no_os_spi_init_param.device_id p) SPI_WIDTH_STANDARD;
        EvSetDataSize (no_os_spi_init_param.device_id p) 8]) /\
  max_spi_transfer (Some other) (Some msgs) (mach s1)
    = transfer_loop other msgs (mach s1).
Proof.
  intros Hi Hcd Hcs Htab.
  destruct (no_os_spi_init_param.extra p) as [eparam|] eqn:He;
    [|unfold max_spi_init in Hi; rewrite He in Hi; discriminate Hi].
  destruct cd as [a|];
    [|unfold max_spi_init in Hi; rewrite He in Hi; discriminate Hi].
  destruct cs as [b|];
    [|unfold max_spi_init in Hi; rewrite He in Hi; discriminate Hi].
  destruct (Hcs b eq_refl) as [Hb Hfresh].
  destruct (max_spi_init_allocated p eparam a b s s1 0 out He
              (Hcd a eq_refl) Hb Hfresh Hi)
    as [(_ & E & _) | (Hlt & r & m1 & Hc & [(-> & _ & _ & ->) | (Hr & E & _)])];
    [discriminate E | | congruence].
  pose proof (max_spi_config_inv _ _ _ _ Hc) as (L1 & _).
  apply max_spi_config_cases in Hc as (st & _ & Hcases).
  simpl in L1, Hcases. cbn [mach].
  split; [exact L1|]. split.
  - destruct Hcases as [(_ & md & _ & T) | [(E & _) | (E & _)]];
      [|discriminate E..].
    exists b, st, md. auto.
  - apply max_spi_transfer_same. rewrite L1. exact Htab.
Qed.

(** X20.  [max_spi_remove] on NULL returns -EINVAL and does nothing.  On a
    descriptor with a private state it returns 0 whatever
    MXC_SPI_Shutdown returns, that call being its only one, and frees the
    private state and the descriptor; the table keeps the entry of the
    bus. *)
Theorem X20_remove_frees a d st (s : system X) :
  descs s !! a = Some d ->
  extra d <> 0 ->
  heap (mach s) !! extra d = Some st ->
  max_spi_remove None s = Some (- EINVAL, s) /\
  exists s',
    max_spi_remove (Some a) s = Some (0, s') /\
    descs s' = delete a (descs s) /\
    heap (mach s') = delete (extra d) (heap (mach s)) /\
    last_slave_id (mach s') = last_slave_id (mach s) /\
    trace (mach s') = trace (mach s) ++ [EvShutdown (device_id d)].
Proof.
  intros Hd Hx Hst. split; [reflexivity|].
  unfold max_spi_remove. rewrite Hd. simpl.
  destruct (call _ _ (mach s)) as [r m1] eqn:E.
  apply call_inv in E as (L & Hh & T & _).
  unfold free_state. destruct (Z.eqb_spec (extra d) 0); [contradiction|].
  eexists. rewrite Hh, Hst. simpl. split; [reflexivity|]. simpl. auto.
Qed.

End Lifecycle_composition.

(** ** The results of a transfer *)

Section Transfer_results.

Context {X : Type} `{!HAL X}.

(** X21.  [max_spi_transfer] returns 0, -EINVAL or -EBUSY and nothing
    else, whatever the vendor library returns, NULL arguments included; it
    returns -EBUSY only after it has executed a transaction. *)
Theorem X21_transfer_results desc msgs (m m' : machine X) ret :
  max_spi_transfer desc msgs m = Some (ret, m') ->
  (ret = 0 \/ ret = - EINVAL \/ ret = - EBUSY) /\
  (ret = - EBUSY -> requests (trace m') <> requests (trace m)).
Proof.
  destruct desc as [d|]; [|intros [= <- <-]; split; [auto | discriminate]].
  destruct msgs as [l|]; [|intros [= <- <-]; split; [auto | discriminate]].
  unfold max_spi_transfer.
  destruct (last_slave_id m !! Z.to_nat (device_id d)) as [last|]; simpl;
    [|discriminate].
  assert (Hloop : forall m0 : machine X,
            requests (trace m0) = requests (trace m) ->
            transfer_loop d l m0 = Some (ret, m') ->
            (ret = 0 \/ ret = - EINVAL \/ ret = - EBUSY) /\
            (ret = - EBUSY -> requests (trace m') <> requests (trace m))).
  { intros m0 R0 Hl. pose proof (transfer_loop_inv _ _ _ _ _ Hl) as (_ & _ & R).
    split; [exact R|]. intros ->.
    apply transfer_loop_trace in Hl as (k & Hkl & Hreq & _ & Hne).
    destruct (Hne ltac:(discriminate)) as [Hk _].
    rewrite Hreq, R0. intros Heq.
    apply (f_equal length) in Heq. rewrite length_app, length_fmap in Heq.
    destruct l as [|x l]; destruct k as [|k]; simpl in *; lia. }
  destruct (negb (chip_select d =? last)); [|apply Hloop; reflexivity].
  destruct (_max_spi_config d m) as [[r m1]|] eqn:Hc; simpl; [|discriminate].
  pose proof (max_spi_config_result _ _ _ _ Hc) as Hr.
  apply max_spi_config_quiet in Hc as (R1 & _).
  destruct (Z.eqb_spec r 0) as [->|Hr0]; simpl.
  - apply Hloop. exact R1.
  - intros [= <- <-]. destruct Hr as [E|E]; [contradiction|].
    split; [auto|]. rewrite E. discriminate.
Qed.

End Transfer_results.

(** ** The further properties on the scripted peripheral *)

Lemma X1_witness :
  exists st md,
    heap sim_reset !! extra (sim_desc 1) = Some st /\
    trace (sim_configured (sim_desc 1) sim_reset) = trace sim_reset ++
      [init_event (sim_desc 1) st; EvSetMode 0 md;
       EvSetWidth 0 SPI_WIDTH_STANDARD; EvSetDataSize 0 8] /\
    ((mode (sim_desc 1) = 0 /\ md = 0) \/ (mode (sim_desc 1) = 1 /\ md = 2) \/
     (mode (sim_desc 1) = 2 /\ md = 1) \/ (mode (sim_desc 1) = 3 /\ md = 3)).
Proof.
  apply (X1_config_success_sequence (sim_desc 1) sim_reset
           (sim_configured (sim_desc 1) sim_reset)).
  reflexivity.
Defined.


Lemma X3_witness :
  exists k : nat,
    (k <= 2)%nat /\
    requests (trace (sim_transferred (sim_desc 1)
                       [msg_delays 0 0; msg_delays 2 3] sim_reset)) =
      requests (trace sim_reset)
      ++ (request_of (sim_desc 1) <$> take k [msg_delays 0 0; msg_delays 2 3])
    /\ (0 = 0 -> k = 2%nat).
Proof.
  apply (X3_transactions_follow_messages (sim_desc 1)
           [msg_delays 0 0; msg_delays 2 3] sim_reset
           (sim_transferred (sim_desc 1) [msg_delays 0 0; msg_delays 2 3]
              sim_reset) 0).
  reflexivity.
Defined.

Lemma X4_witness :
  udelays (trace (sim_transferred (sim_desc 1)
                    [msg_delays 0 0; msg_delays 2 3] sim_reset)) =
    udelays (trace sim_reset)
    ++ (cs_change_delay <$> [msg_delays 0 0; msg_delays 2 3])
  /\ exists k : nat,
       (k <= 2)%nat /\
       requests (trace (sim_transferred (sim_desc 0)
                          [msg_delays 0 0; msg_delays 0 0] sim_busy)) =
         requests (trace sim_busy)
         ++ (request_of (sim_desc 0)
               <$> take k [msg_delays 0 0; msg_delays 0 0]) /\
       udelays (trace (sim_transferred (sim_desc 0)
                         [msg_delays 0 0; msg_delays 0 0] sim_busy)) =
         udelays (trace sim_busy)
         ++ (cs_change_delay
               <$> take (k - 1) [msg_delays 0 0; msg_delays 0 0]) /\
       length (requests (trace (sim_transferred (sim_desc 0)
                                  [msg_delays 0 0; msg_delays 0 0] sim_busy)))
         = (length (requests (trace sim_busy)) + k)%nat /\
       length (udelays (trace (sim_transferred (sim_desc 0)
                                 [msg_delays 0 0; msg_delays 0 0] sim_busy)))
         = (length (udelays (trace sim_busy)) + (k - 1))%nat.
Proof.
  split.
  - refine (proj1 (X4_pacing_delays (sim_desc 1)
                     [msg_delays 0 0; msg_delays 2 3] sim_reset
                     (sim_transferred (sim_desc 1)
                        [msg_delays 0 0; msg_delays 2 3] sim_reset) 0 _) _);
      reflexivity.
  - refine (proj2 (X4_pacing_delays (sim_desc 0)
                     [msg_delays 0 0; msg_delays 0 0] sim_busy
                     (sim_transferred (sim_desc 0)
                        [msg_delays 0 0; msg_delays 0 0] sim_busy)
                     (- EBUSY) _) _).
    + reflexivity.
    + unfold EBUSY. lia.
Defined.

Lemma X5_witness :
  exists m' r',
    write_field 0 MXC_F_SPI_SSTIME_POST 7 sim_reset = Some m' /\
    read_sstime 0 m' = Some r' /\
    no_os_field_get MXC_F_SPI_SSTIME_POST r' = 7 /\
    no_os_field_get MXC_F_SPI_SSTIME_PRE r'
      = no_os_field_get MXC_F_SPI_SSTIME_PRE 0x010101 /\
    Z.shiftr r' 16 = Z.shiftr 0x010101 16 /\
    same_but_sstime 0 sim_reset m' /\ trace m' = trace sim_reset.
Proof.
  refine (proj2 (X5_field_write_is_isolated 0 7 0x010101 sim_reset _ _ _)).
  - reflexivity.
  - lia.
  - lia.
Defined.

Lemma X6_witness :
  exists m' r',
    _max_delay_config (sim_desc 0) (msg_delays 2 3) sim_reset = Some m' /\
    trace m' = trace sim_reset /\
    last_slave_id m' = last_slave_id sim_reset /\
    ext (periph m') = ext (periph sim_reset) /\
    heap m' !! extra (sim_desc 0) = Some (sim_state 2 3) /\
    read_sstime (device_id (sim_desc 0)) m' = Some r' /\
    no_os_field_get MXC_F_SPI_SSTIME_PRE r' = 100 /\
    no_os_field_get MXC_F_SPI_SSTIME_POST r' = 150 /\
    Z.shiftr r' 16 = Z.shiftr 0x010101 16 /\
    length (sstime (periph m')) = length (sstime (periph sim_reset)) /\
    (forall i : nat, i <> Z.to_nat (device_id (sim_desc 0)) ->
       sstime (periph m') !! i = sstime (periph sim_reset) !! i) /\
    (forall a, a <> extra (sim_desc 0) -> heap m' !! a = heap sim_reset !! a).
Proof.
  apply (X6_delay_config_applied (sim_desc 0) (msg_delays 2 3) sim_reset
           (sim_state 0 0) 0x010101 20 100 150);
    try reflexivity; try lia; intros _; lia.
Defined.

Lemma X7_witness :
  _max_delay_config (sim_desc 0) (msg_delays 2 3)
    (sim_delayed (sim_desc 0) (msg_delays 2 3) sim_reset)
  = Some (sim_delayed (sim_desc 0) (msg_delays 2 3) sim_reset).
Proof.
  apply (X7_delay_config_idempotent (sim_desc 0) (msg_delays 2 3) sim_reset);
    reflexivity.
Defined.

Lemma X8_witness :
  exists t, ticks_ns_of 50000000 = Some t /\ 1 <= t /\
            2 * Z.abs (t * 50000000 - NANO) <= 50000000.
Proof. apply (X8_tick_period_rounded 50000000). lia. Defined.

Lemma X9_witness :
  exists k, first_ticks_delay (msg_delays 2 0) 33 = Some k /\
            k * 33 <= cs_delay_first (msg_delays 2 0) * 1000 < (k + 1) * 33 /\
            (33 <= 1000 -> 1 <= k).
Proof.
  apply (X9_first_ticks_rounded_down (msg_delays 2 0) 33); simpl; lia.
Defined.


Lemma X11_witness : 50 <= 100.
Proof.
  apply (X11_first_ticks_monotone (msg_delays 1 0) (msg_delays 2 0) 20 50 100);
    try reflexivity; simpl; lia.
Defined.

Lemma X12_witness :
  length (last_slave_id (sim_transferred (sim_desc 1) [msg_delays 2 3]
                           sim_reset))
    = length (last_slave_id sim_reset) /\
  (forall i : nat, i <> Z.to_nat (device_id (sim_desc 1)) ->
     last_slave_id (sim_transferred (sim_desc 1) [msg_delays 2 3] sim_reset)
       !! i = last_slave_id sim_reset !! i) /\
  (last_slave_id (sim_transferred (sim_desc 1) [msg_delays 2 3] sim_reset)
     !! Z.to_nat (device_id (sim_desc 1))
     = last_slave_id sim_reset !! Z.to_nat (device_id (sim_desc 1)) \/
   last_slave_id (sim_transferred (sim_desc 1) [msg_delays 2 3] sim_reset)
     !! Z.to_nat (device_id (sim_desc 1)) = Some (chip_select (sim_desc 1))) /\
  (forall a, a <> extra (sim_desc 1) ->
     heap (sim_transferred (sim_desc 1) [msg_delays 2 3] sim_reset) !! a
       = heap sim_reset !! a).
Proof.
  apply (X12_transfer_frame (sim_desc 1) [msg_delays 2 3] sim_reset
           (sim_transferred (sim_desc 1) [msg_delays 2 3] sim_reset) 0).
  reflexivity.
Defined.

Lemma X13_witness :
  heap (sim_written (sim_desc 0) 4096 4 (sim_machine 50000000 0 [] 5 3))
    !! extra (sim_desc 0) = Some (sim_state 0 0).
Proof.
  apply (X13_write_and_read_resets_delays (sim_desc 0) 4096 4
           (sim_machine 50000000 0 [] 5 3)
           (sim_written (sim_desc 0) 4096 4 (sim_machine 50000000 0 [] 5 3))
           (sim_state 5 3));
    reflexivity.
Defined.

Lemma X14_witness :
  (None : option Z) = None /\
  descs (sim_initialised (sim_request 0 1 0) (sim_system sim_refusing))
    = descs (sim_system sim_refusing) /\
  heap (mach (sim_initialised (sim_request 0 1 0) (sim_system sim_refusing)))
    = heap (mach (sim_system sim_refusing)) /\
  last_slave_id
    (mach (sim_initialised (sim_request 0 1 0) (sim_system sim_refusing)))
    = last_slave_id (mach (sim_system sim_refusing)) /\
  (- EINVAL = - EINVAL \/ - EINVAL = - ENOMEM).
Proof.
  apply (X14_init_failure_frees (Some (sim_request 0 1 0)) (Some 200)
           (Some 300) (sim_system sim_refusing)
           (sim_initialised (sim_request 0 1 0) (sim_system sim_refusing))
           (- EINVAL) None).
  - reflexivity.
  - unfold EINVAL. lia.
  - intros a [= <-]. reflexivity.
  - intros b [= <-]. split; [lia | reflexivity].
Defined.

Lemma X15_witness :
  exists eparam a b,
    no_os_spi_init_param.extra (sim_request 0 1 0) = Some eparam /\
    Some 200 = Some a /\ Some 300 = Some b /\ Some 200 = Some a /\
    descs (sim_initialised (sim_request 0 1 0) (sim_system sim_reset))
      = <[a := descriptor_of (sim_request 0 1 0) b]>
          (descs (sim_system sim_reset)) /\
    heap (mach (sim_initialised (sim_request 0 1 0) (sim_system sim_reset)))
      = <[b := {| init_param := eparam; st_cs_delay_first := 0;
                  st_cs_delay_last := 0 |}]>
          (heap (mach (sim_system sim_reset))) /\
    no_os_spi_init_param.device_id (sim_request 0 1 0)
      < Z.of_nat MXC_SPI_INSTANCES /\
    last_slave_id
      (mach (sim_initialised (sim_request 0 1 0) (sim_system sim_reset)))
      = last_slave_id (mach (sim_system sim_reset)) /\
    config_calls
      (trace (mach (sim_initialised (sim_request 0 1 0)
                      (sim_system sim_reset))))
      = S (config_calls (trace (mach (sim_system sim_reset)))).
Proof.
  apply (X15_init_success (sim_request 0 1 0) (Some 200) (Some 300)
           (sim_system sim_reset)
           (sim_initialised (sim_request 0 1 0) (sim_system sim_reset))
           (Some 200)).
  - reflexivity.
  - intros a [= <-]. reflexivity.
  - intros b [= <-]. split; [lia | reflexivity].
Defined.

Lemma X16_witness :
  exists s2,
    max_spi_remove (Some 200)
      (sim_initialised (sim_request 0 1 0) (sim_system sim_reset))
      = Some (0, s2) /\
    descs s2 = descs (sim_system sim_reset) /\
    heap (mach s2) = heap (mach (sim_system sim_reset)) /\
    last_slave_id (mach s2) = last_slave_id (mach (sim_system sim_reset)) /\
    trace (mach s2) =
      trace (mach (sim_initialised (sim_request 0 1 0)
                     (sim_system sim_reset)))
      ++ [EvShutdown (no_os_spi_init_param.device_id (sim_request 0 1 0))].
Proof.
  apply (X16_init_remove_round_trip (sim_request 0 1 0) (Some 200) (Some 300)
           (sim_system sim_reset)).
  - reflexivity.
  - intros a [= <-]. reflexivity.
  - intros b [= <-]. split; [lia | reflexivity].
Defined.

Lemma X17_witness :
  - EINVAL <> 0 /\ (None : option Z) = None /\
  trace (mach (sim_initialised (sim_request 5 1 0) (sim_system sim_reset)))
    = trace (mach (sim_system sim_reset)).
Proof.
  apply (X17_init_instance_bound (sim_request 5 1 0) (Some 200) (Some 300)
           (sim_system sim_reset)
           (sim_initialised (sim_request 5 1 0) (sim_system sim_reset))
           (- EINVAL) None).
  - reflexivity.
  - vm_compute. discriminate.
Defined.

Lemma X18_witness :
  exists pre,
    trace (mach (sim_initialised (sim_request 0 1 0)
                   (sim_system sim_refusing)))
      = trace (mach (sim_system sim_refusing)) ++ pre ++ [EvShutdown 0] /\
    (hw_mode (no_os_spi_init_param.mode (sim_request 0 1 0)) <> None ->
     exists pre', pre = pre' ++ [EvShutdown 0]).
Proof.
  apply (X18_init_failure_shuts_down (sim_request 0 1 0) (Some 200)
           (Some 300) (sim_system sim_refusing)
           (sim_initialised (sim_request 0 1 0) (sim_system sim_refusing))
           (- EINVAL) None).
  - reflexivity.
  - unfold EINVAL. lia.
  - vm_compute. discriminate.
  - intros a [= <-]. reflexivity.
  - intros b [= <-]. split; [lia | reflexivity].
Defined.

Lemma X19_witness :
  last_slave_id
    (mach (sim_initialised (sim_request 0 1 0) (sim_system sim_reset)))
    = last_slave_id (mach (sim_system sim_reset)) /\
  (exists b st md,
     Some 300 = Some b /\
     trace (mach (sim_initialised (sim_request 0 1 0)
                    (sim_system sim_reset)))
       = trace (mach (sim_system sim_reset)) ++
         [init_event (descriptor_of (sim_request 0 1 0) b) st;
          EvSetMode (no_os_spi_init_param.device_id (sim_request 0 1 0)) md;
          EvSetWidth (no_os_spi_init_param.device_id (sim_request 0 1 0))
                     SPI_WIDTH_STANDARD;
          EvSetDataSize
            (no_os_spi_init_param.device_id (sim_request 0 1 0)) 8]) /\
  max_spi_transfer (Some (sim_desc 0)) (Some [msg_delays 0 0])
    (mach (sim_initialised (sim_request 0 1 0) (sim_system sim_reset)))
  = transfer_loop (sim_desc 0) [msg_delays 0 0]
      (mach (sim_initialised (sim_request 0 1 0) (sim_system sim_reset))).
Proof.
  apply (X19_init_keeps_table (sim_request 0 1 0) (Some 200) (Some 300)
           (sim_system sim_reset)
           (sim_initialised (sim_request 0 1 0) (sim_system sim_reset))
           (Some 200) (sim_desc 0) [msg_delays 0 0]).
  - reflexivity.
  - intros a [= <-]. reflexivity.
  - intros b [= <-]. split; [lia | reflexivity].
  - reflexivity.
Defined.

Lemma X20_witness :
  max_spi_remove None sim_allocated = Some (- EINVAL, sim_allocated) /\
  exists s',
    max_spi_remove (Some 200) sim_allocated = Some (0, s') /\
    descs s' = delete 200 (descs sim_allocated) /\
    heap (mach s') =
      delete (extra (sim_desc 0)) (heap (mach sim_allocated)) /\
    last_slave_id (mach s') = last_slave_id (mach sim_allocated) /\
    trace (mach s') = trace (mach sim_allocated)
                      ++ [EvShutdown (device_id (sim_desc 0))].
Proof.
  apply (X20_remove_frees 200 (sim_desc 0) (sim_state 0 0) sim_allocated).
  - reflexivity.
  - simpl. lia.
  - reflexivity.
Defined.

Lemma X21_witness :
  (- EBUSY = 0 \/ - EBUSY = - EINVAL \/ - EBUSY = - EBUSY) /\
  (- EBUSY = - EBUSY ->
   requests (trace (sim_transferred (sim_desc 0) [msg_delays 0 0] sim_busy))
   <> requests (trace sim_busy)).
Proof.
  apply (X21_transfer_results (Some (sim_desc 0)) (Some [msg_delays 0 0])
           sim_busy
           (sim_transferred (sim_desc 0) [msg_delays 0 0] sim_busy)
           (- EBUSY)).
  reflexivity.
Defined.
